(** * lnstacks: minus-logarithm conversion of hdf5 image stacks

    A shallow embedding of [src/lnstacks.py] (class [MinusLnStack]) and the
    properties of its single-stack conversion pipeline.

    The Python code is imperative: it opens two hdf5 containers, creates
    groups and datasets in the destination, streams frames, prints
    diagnostics and raises exceptions.  It is embedded in a state-and-error
    monad over an explicit store (the file system with its open handles)
    and an event trace.  Python objects that alias storage (h5py [File],
    [Group] and [Dataset] objects) are references into that store, so a
    write through one reference is seen through every other one.

    Numerical operations of numpy ([np.log], unary minus, the conversion to
    the element type of the dataset written to) are not part of the
    repository; they are parameters of the development. *)

From Stdlib Require Import Ascii.
From stdpp Require Import base strings list gmap.

#[local] Set Warnings "-register-all,-clear-no-such-hyp".

(** ** Python strings: [str.rsplit(sep, 1)] *)

(** [rsplit_last sep s] cuts [s] at its last occurrence of [sep]. *)
Fixpoint rsplit_last (sep : ascii) (s : string) : option (string * string) :=
  match s with
  | EmptyString => None
  | String c s' =>
      match rsplit_last sep s' with
      | Some (a, b) => Some (String c a, b)
      | None => if Ascii.eqb c sep then Some (EmptyString, s') else None
      end
  end.

(** [s.rsplit(sep, 1)]: two pieces when [sep] occurs, else [[s]]. *)
Definition rsplit (s : string) (sep : ascii) : list string :=
  match rsplit_last sep s with
  | Some (a, b) => [a; b]
  | None => [s]
  end.

(** ** Exceptions and return values *)

Inductive exn :=
| ValueError
| OSError
| IndexError
| KeyError
| AttributeError
| TypeError
| NotImplementedError.

(** Every class above derives from Python's [Exception]; this is what an
    [except Exception:] clause tests. *)
Definition is_Exception (e : exn) : bool :=
  match e with
  | ValueError | OSError | IndexError | KeyError
  | AttributeError | TypeError | NotImplementedError => true
  end.

Inductive result (A : Type) :=
| Ok (a : A)
| Raise (e : exn).
Arguments Ok {A} a.
Arguments Raise {A} e.

(** What a Python call hands back to its caller. *)
Inductive pyval :=
| PyNone
| PyStr (s : string).

(** ** hdf5 containers *)

Inductive dtype := Float16 | Float32 | Float64 | Int16 | UInt16 | Int32.

Inductive mode := ReadOnly | WriteTruncate.

(** A reference to an object of an open container: the path of the file and
    the link names leading from its root group to the object. *)
Record objref := ObjRef { ref_file : string; ref_path : list string }.

Definition child (r : objref) (name : string) : objref :=
  ObjRef (ref_file r) (ref_path r ++ [name]).

(** What a run does that can be observed from outside, in order.  [EvOpen]
    records an attempt to open a file that reaches the file system,
    successful or not; the other events record completed operations.  [EvCall] marks the call of a helper
    method, here [copy_metadata], by [minus_ln_stack]. *)
Inductive event :=
| EvOpen (path : string) (m : mode)
| EvClose (path : string)
| EvCreateGroup (parent : objref) (name : string)
| EvCreateDataset (parent : objref) (name : string)
| EvSetAttr (obj : objref) (key : string)
| EvReadFrame (ds : objref) (i : nat)
| EvWriteFrame (ds : objref) (i : nat)
| EvCall (fn : string)
| EvPrint (msg : string).

Definition product (l : list nat) : nat := foldr Nat.mul 1 l.

(** Array elements with numpy's element-wise operations and the conversions
    hdf5 applies to them. *)
Class Numpy (pixel : Type) := {
  (** [np.log] on one element *)
  np_log : pixel → pixel;
  (** unary minus on one element *)
  np_negative : pixel → pixel;
  (** conversion of a value to the element type of the dataset it is
      stored in *)
  astype : dtype → pixel → pixel;
  (** the value hdf5 reads back from a never-written element of that type *)
  fill_value : dtype → pixel
}.

Section Lnstacks.

Context {pixel : Type} `{!Numpy pixel}.

(** A dataset.  [ds_data] lists the slices along the first axis, each one
    flattened in row-major order: for a stack of shape [(n, rows, cols)] it
    is the [n] frames, each of [rows * cols] pixels. *)
Record dataset := Build_dataset {
  ds_shape : list nat;
  ds_dtype : dtype;
  ds_chunks : option (list nat);
  ds_attrs : gmap string nat;
  ds_data : list (list pixel)
}.

(** An object of a container: a dataset, or a group with its attributes and
    its members by link name. *)
Inductive node :=
| Dataset (d : dataset)
| Group (attrs : gmap string nat) (members : gmap string node).

Inductive file :=
| Container (root : node)
| NotHdf5.

(** A numpy array as read from a dataset with [.value]. *)
Record ndarray := Build_ndarray {
  arr_shape : list nat;
  arr_dtype : dtype;
  arr_data : list (list pixel)
}.

Record state := Build_state {
  fs : gmap string file;
  opened : list (string * mode);
  trace : list event
}.

Definition init_state (files : gmap string file) : state :=
  Build_state files [] [].

(** ** The monad *)

Definition M (A : Type) : Type := state → result A * state.

Definition ret {A} (a : A) : M A := λ s, (Ok a, s).

Definition bind {A B} (m : M A) (k : A → M B) : M B :=
  λ s, match m s with
       | (Ok a, s') => k a s'
       | (Raise e, s') => (Raise e, s')
       end.

Definition raise {A} (e : exn) : M A := λ s, (Raise e, s).

Definition log (e : event) : M unit :=
  λ s, (Ok tt, Build_state (fs s) (opened s) (trace s ++ [e])).

Notation "x ← m ; k" := (bind m (λ x, k))
  (at level 20, m at level 100, k at level 200, only parsing).
Notation "m ;; k" := (bind m (λ _, k))
  (at level 100, k at level 200, right associativity).

(** [try: body except <classes>: handler]. *)
Definition try_except (body : M unit) (catches : exn → bool)
    (handler : M unit) : M unit :=
  λ s, match body s with
       | (Ok _, s') => (Ok tt, s')
       | (Raise e, s') => if catches e then handler s' else (Raise e, s')
       end.

(** A bare [except:] clause. *)
Definition any_exception (e : exn) : bool := true.

Fixpoint for_each {A} (l : list A) (body : A → M unit) : M unit :=
  match l with
  | [] => ret tt
  | x :: l' => body x ;; for_each l' body
  end.

(** [for i in range(n): body]. *)
Definition for_range (n : nat) (body : nat → M unit) : M unit :=
  for_each (seq 0 n) body.

(** [l[i]] on a Python list or tuple. *)
Definition getitem_seq {A} (l : list A) (i : nat) : M A :=
  match l !! i with
  | Some x => ret x
  | None => raise IndexError
  end.

Definition print (msg : string) : M unit := log (EvPrint msg).

(** ** Access to the store

    A link name is taken as it is: paths with ["/"] inside a name, which
    h5py would walk, are outside this model. *)

Fixpoint node_lookup (p : list string) (n : node) : option node :=
  match p with
  | [] => Some n
  | k :: p' =>
      match n with
      | Group _ m => m !! k ≫= node_lookup p'
      | Dataset _ => None
      end
  end.

Fixpoint node_store (p : list string) (v : node) (n : node) : node :=
  match p with
  | [] => v
  | k :: p' =>
      match n with
      | Group a m => Group a (alter (node_store p' v) k m)
      | Dataset _ => n
      end
  end.

Definition resolve (s : state) (r : objref) : option node :=
  match fs s !! ref_file r with
  | Some (Container root) => node_lookup (ref_path r) root
  | _ => None
  end.

Definition store (r : objref) (v : node) (s : state) : state :=
  match fs s !! ref_file r with
  | Some (Container root) =>
      Build_state
        (<[ref_file r := Container (node_store (ref_path r) v root)]> (fs s))
        (opened s) (trace s)
  | _ => s
  end.

Definition is_open (path : string) (s : state) : bool :=
  existsb (λ h, bool_decide (h.1 = path)) (opened s).

(** ** h5py operations

    An operation does not check that the container of a reference is still
    open: the program uses no reference after [close]. *)

(** [h5py.File(path, mode)].  hdf5 checks the name first and refuses an
    empty one as a bad argument, which h5py raises as [ValueError]; nothing
    has been looked up in the file system then.  For any other name the
    attempt is recorded whether or not it succeeds.  Mode ["r"] needs an
    existing hdf5 file; mode ["w"] creates the file, or truncates it, and
    hdf5 refuses it for a file this process holds open. *)
Definition File (path : string) (m : mode) : M objref :=
  if bool_decide (path = EmptyString) then raise ValueError
  else
    log (EvOpen path m) ;;
    λ s,
      match m with
      | ReadOnly =>
          match fs s !! path with
          | Some (Container _) =>
              (Ok (ObjRef path []),
               Build_state (fs s) (opened s ++ [(path, m)]) (trace s))
          | _ => (Raise OSError, s)
          end
      | WriteTruncate =>
          if is_open path s then (Raise OSError, s)
          else (Ok (ObjRef path []),
                Build_state (<[path := Container (Group ∅ ∅)]> (fs s))
                            (opened s ++ [(path, m)]) (trace s))
      end.

(** [f.close()]. *)
Definition close (f : objref) : M unit :=
  (λ s, (Ok tt,
         Build_state (fs s)
           (filter (λ h, h.1 ≠ ref_file f) (opened s)) (trace s))) ;;
  log (EvClose (ref_file f)).

(** [obj[name]] with a string: a member of a group. *)
Definition getitem (obj : objref) (name : string) : M objref :=
  λ s, match resolve s obj with
       | Some (Group _ m) =>
           match m !! name with
           | Some _ => (Ok (child obj name), s)
           | None => (Raise KeyError, s)
           end
       | Some (Dataset _) => (Raise ValueError, s)
       | None => (Raise KeyError, s)
       end.

(** [ds.shape]; a group has no such attribute. *)
Definition shape (obj : objref) : M (list nat) :=
  λ s, match resolve s obj with
       | Some (Dataset d) => (Ok (ds_shape d), s)
       | _ => (Raise AttributeError, s)
       end.

(** The array held by a dataset. *)
Definition array_of (d : dataset) : ndarray :=
  Build_ndarray (ds_shape d) (ds_dtype d) (ds_data d).

(** [ds.value] (h5py 2.x): the whole content of a dataset; a group has no
    such attribute. *)
Definition value (obj : objref) : M ndarray :=
  λ s, match resolve s obj with
       | Some (Dataset d) => (Ok (array_of d), s)
       | _ => (Raise AttributeError, s)
       end.

(** [grp.create_group(name)]. *)
Definition create_group (grp : objref) (name : string) : M objref :=
  λ s, match resolve s grp with
       | Some (Group a m) =>
           match m !! name with
           | Some _ => (Raise ValueError, s)
           | None =>
               (log (EvCreateGroup grp name) ;; ret (child grp name))
                 (store grp (Group a (<[name := Group ∅ ∅]> m)) s)
           end
       | Some (Dataset _) => (Raise AttributeError, s)
       | None => (Raise KeyError, s)
       end.

Definition add_dataset (grp : objref) (name : string) (d : dataset)
    : M objref :=
  λ s, match resolve s grp with
       | Some (Group a m) =>
           match m !! name with
           | Some _ => (Raise ValueError, s)
           | None =>
               (log (EvCreateDataset grp name) ;; ret (child grp name))
                 (store grp (Group a (<[name := Dataset d]> m)) s)
           end
       | Some (Dataset _) => (Raise AttributeError, s)
       | None => (Raise KeyError, s)
       end.

(** The dataset that holds an array: shape, element type and content are
    the array's; storage is contiguous and no attribute is set. *)
Definition dataset_of (arr : ndarray) : dataset :=
  Build_dataset (arr_shape arr) (arr_dtype arr) None ∅ (arr_data arr).

(** [grp.create_dataset(name, data=arr)]. *)
Definition create_dataset_data (grp : objref) (name : string)
    (arr : ndarray) : M objref :=
  add_dataset grp name (dataset_of arr).

(** hdf5 accepts a chunk shape of the rank of the dataset, with every
    extent positive and none larger than the dataset's. *)
Definition chunks_ok (shp chunks : list nat) : bool :=
  bool_decide (length chunks = length shp)
  && forallb (λ c : nat, bool_decide (0 < c)%nat) chunks
  && forallb (λ dc : nat * nat, bool_decide (dc.2 ≤ dc.1)%nat) (zip shp chunks).

Definition empty_data (shp : list nat) (t : dtype) : list (list pixel) :=
  match shp with
  | [] => [[fill_value t]]
  | n :: rest => replicate n (replicate (product rest) (fill_value t))
  end.

(** [grp.create_dataset(name, shape=shp, chunks=chunks, dtype=t)]. *)
Definition create_dataset (grp : objref) (name : string) (shp : list nat)
    (chunks : list nat) (t : dtype) : M objref :=
  if chunks_ok shp chunks
  then add_dataset grp name
         (Build_dataset shp t (Some chunks) ∅ (empty_data shp t))
  else raise ValueError.

(** [obj.attrs[key] = v]. *)
Definition attrs_setitem (obj : objref) (key : string) (v : nat) : M unit :=
  λ s, match resolve s obj with
       | Some (Dataset d) =>
           log (EvSetAttr obj key)
             (store obj
                (Dataset (Build_dataset (ds_shape d) (ds_dtype d)
                            (ds_chunks d) (<[key := v]> (ds_attrs d))
                            (ds_data d))) s)
       | Some (Group a m) =>
           log (EvSetAttr obj key) (store obj (Group (<[key := v]> a) m) s)
       | None => (Raise KeyError, s)
       end.

(** [ds[i]] with an integer: the slice at index [i] of the first axis. *)
Definition dataset_getitem (ds : objref) (i : nat) : M (list pixel) :=
  λ s, match resolve s ds with
       | Some (Dataset d) =>
           match ds_data d !! i with
           | Some fr => (log (EvReadFrame ds i) ;; ret fr) s
           | None => (Raise IndexError, s)
           end
       | _ => (Raise TypeError, s)
       end.

(** [ds[i] = v]: the slice must fit, and its elements are converted to the
    element type of the dataset. *)
Definition dataset_setitem (ds : objref) (i : nat) (v : list pixel)
    : M unit :=
  λ s, match resolve s ds with
       | Some (Dataset d) =>
           if bool_decide (i < length (ds_data d)) then
             if bool_decide (length v = product (tail (ds_shape d))) then
               log (EvWriteFrame ds i)
                 (store ds
                    (Dataset (Build_dataset (ds_shape d) (ds_dtype d)
                                (ds_chunks d) (ds_attrs d)
                                (<[i := astype (ds_dtype d) <$> v]>
                                   (ds_data d)))) s)
             else (Raise TypeError, s)
           else (Raise IndexError, s)
       | _ => (Raise TypeError, s)
       end.

(** ** The program: class [MinusLnStack] *)

Definition newline : string := String (ascii_of_nat 10) EmptyString.

Definition angles_msg : string :=
  newline +:+ "Angles could not be extracted.".
Definition energies_msg : string :=
  newline +:+ "Energies could not be extracted.".
Definition pixel_size_msg : string :=
  newline +:+ "Pixel size could NOT be extracted.".

(** [copy_metadata(self, h5_group, h5_grp_ln)]: the call is recorded, then
    come the three [try] blocks of the source. *)
Definition copy_metadata (h5_group h5_grp_ln : objref) : M unit :=
  log (EvCall "copy_metadata") ;;
  try_except
    (angles ← (r ← getitem h5_group "rotation_angle"; value r);
     create_dataset_data h5_grp_ln "rotation_angle" angles ;;
     ret tt)
    any_exception
    (print angles_msg) ;;
  try_except
    (energies ← (r ← getitem h5_group "energy"; value r);
     create_dataset_data h5_grp_ln "energy" energies ;;
     ret tt)
    any_exception
    (print energies_msg) ;;
  try_except
    (x_pixel_size ← (r ← getitem h5_group "x_pixel_size"; value r);
     y_pixel_size ← (r ← getitem h5_group "y_pixel_size"; value r);
     create_dataset_data h5_grp_ln "x_pixel_size" x_pixel_size ;;
     create_dataset_data h5_grp_ln "y_pixel_size" y_pixel_size ;;
     ret tt)
    is_Exception
    (print pixel_size_msg).

(** [-np.log(img)]. *)
Definition minus_log (img : list pixel) : list pixel :=
  np_negative <$> (np_log <$> img).

(** [minus_ln_stack(self, h5_stack_fn, tree, dataset)]. *)
Definition minus_ln_stack (h5_stack_fn : option string)
    (tree dataset : string) : M pyval :=
  match h5_stack_fn with
  | None => raise ValueError
  | Some fn =>
      h5_handler ← File fn ReadOnly;
      stem ← getitem_seq (rsplit fn ".") 0;
      let h5_outfile_fn := stem +:+ "_ln.hdf5" in
      ext ← getitem_seq (rsplit fn ".") 1;
      h5_outfile ← File h5_outfile_fn WriteTruncate;
      h5_group ← getitem h5_handler tree;
      input_data_stack ← getitem h5_group dataset;
      infoshape ← shape input_data_stack;
      n_frames ← getitem_seq infoshape 0;
      n_rows ← getitem_seq infoshape 1;
      n_cols ← getitem_seq infoshape 2;
      grp_ln ← create_group h5_outfile tree;
      (if bool_decide (ext = "h5") || bool_decide (ext = "hdf5")
       then copy_metadata h5_group grp_ln
       else ret tt) ;;
      create_dataset grp_ln dataset [n_frames; n_rows; n_cols]
        [1; n_rows; n_cols] Float32 ;;
      (out ← getitem grp_ln dataset;
       attrs_setitem out "Number of Frames" n_frames) ;;
      for_range n_frames (λ n_img,
        img ← dataset_getitem input_data_stack n_img;
        out ← getitem grp_ln dataset;
        dataset_setitem out n_img (minus_log img)) ;;
      close h5_handler ;;
      close h5_outfile ;;
      print ("Stack " +:+ fn +:+ " has been converted") ;;
      ret PyNone
  end.

(** [mrc_stack_minus_ln(self, stack)]: the body is [pass]. *)
Definition mrc_stack_minus_ln {A} (stack : A) : M pyval := ret PyNone.

(** [os.path.isfile(path)]: the store holds the regular files. *)
Definition isfile (path : string) : M bool :=
  λ s, (Ok (bool_decide (is_Some (fs s !! path))), s).

(** [main()], from the parsed arguments on.  [input] is [args.input], which
    argparse delivers as a string; [isdir] is [os.path.isdir], directories
    not being part of the store.  The conversion is called with its default
    [tree] and [dataset]. *)
Definition main (isdir : string → bool) (input : string) : M pyval :=
  is_file ← isfile input;
  if is_file then
    print "Applying minus log to the given stack" ;;
    minus_ln_stack (Some input) "TomoNormalized" "TomoNormalized" ;;
    ret PyNone
  else if isdir input then
    print "Applying minus log to the stacks in the given directory" ;;
    ret PyNone
  else ret PyNone.

(** ** Vocabulary of the specification *)

(** What [grp[name].value] evaluates to in state [s], if it does. *)
Definition field_value (s : state) (grp : objref) (name : string)
    : option ndarray :=
  match resolve s (child grp name) with
  | Some (Dataset d) => Some (array_of d)
  | _ => None
  end.

(** The state [s], seen from the group [grp] of the destination container:
    the attributes and members of the group, the open handles, the trace,
    and every other file as in [files]. *)
Definition dest_view (files : gmap string file) (grp : objref) (s : state)
    (a : gmap string nat) (dm : gmap string node)
    (handles : list (string * mode)) (tr : list event) : Prop :=
  resolve s grp = Some (Group a dm)
  ∧ (∀ path, path ≠ ref_file grp → fs s !! path = files !! path)
  ∧ opened s = handles
  ∧ trace s = tr.

(** Outcome of one single-field block of [copy_metadata] on the members
    [dm] of the destination group, given the value read from the source
    ([None] when the read fails): the new members and the events. *)
Definition copy_one (dst : objref) (name msg : string) (v : option ndarray)
    (dm : gmap string node) : gmap string node * list event :=
  match v, dm !! name with
  | Some arr, None =>
      (<[name := Dataset (dataset_of arr)]> dm, [EvCreateDataset dst name])
  | _, _ => (dm, [EvPrint msg])
  end.

(** Outcome of the pixel-size block. *)
Definition copy_pair (dst : objref) (vx vy : option ndarray)
    (dm : gmap string node) : gmap string node * list event :=
  match vx, vy with
  | Some ax, Some ay =>
      match dm !! "x_pixel_size" with
      | None =>
          let dm1 := <["x_pixel_size" := Dataset (dataset_of ax)]> dm in
          match dm !! "y_pixel_size" with
          | None =>
              (<["y_pixel_size" := Dataset (dataset_of ay)]> dm1,
               [EvCreateDataset dst "x_pixel_size";
                EvCreateDataset dst "y_pixel_size"])
          | Some _ =>
              (dm1, [EvCreateDataset dst "x_pixel_size";
                     EvPrint pixel_size_msg])
          end
      | Some _ => (dm, [EvPrint pixel_size_msg])
      end
  | _, _ => (dm, [EvPrint pixel_size_msg])
  end.

(** Outcome of [copy_metadata] as a function of the four values read. *)
Definition metadata_outcome (dst : objref)
    (angles energies x_size y_size : option ndarray)
    (dm : gmap string node) : gmap string node * list event :=
  let r1 := copy_one dst "rotation_angle" angles_msg angles dm in
  let r2 := copy_one dst "energy" energies_msg energies r1.1 in
  let r3 := copy_pair dst x_size y_size r2.1 in
  (r3.1, EvCall "copy_metadata" :: r1.2 ++ r2.2 ++ r3.2).

(** The names [copy_metadata] may create in the destination group. *)
Definition metadata_fields : list string :=
  ["rotation_angle"; "energy"; "x_pixel_size"; "y_pixel_size"].

(** A valid input: [fn] has an extension and names an hdf5 container whose
    group [tree] holds a dataset [dataset] = [d] of shape
    [(n_frames, n_rows, n_cols)], with no empty extent, and [dataset] is
    not the name of a metadata field that would be copied first.  The
    content of [d] agrees with its shape, as it does in any hdf5 file. *)
Record valid_stack (files : gmap string file) (d : dataset)
    (n_frames n_rows n_cols : nat) (fn tree dataset stem ext : string)
    : Prop := {
  vs_split : rsplit fn "." = [stem; ext];
  vs_dataset :
    resolve (init_state files) (ObjRef fn [tree; dataset]) = Some (Dataset d);
  vs_shape : ds_shape d = [n_frames; n_rows; n_cols];
  vs_extents : 0 < n_frames ∧ 0 < n_rows ∧ 0 < n_cols;
  vs_frames : length (ds_data d) = n_frames;
  vs_pixels : Forall (λ fr, length fr = n_rows * n_cols) (ds_data d);
  vs_name : ext = "h5" ∨ ext = "hdf5" → dataset ∉ metadata_fields
}.

(** The frames of the output: [-np.log] of each input frame, stored as
    32-bit floats. *)
Definition minus_ln_frames (frames : list (list pixel)) : list (list pixel) :=
  (λ fr, astype Float32 <$> minus_log fr) <$> frames.

(** The output dataset for the input stack [d]. *)
Definition converted_stack (n_frames n_rows n_cols : nat) (d : dataset)
    : dataset :=
  Build_dataset [n_frames; n_rows; n_cols] Float32
    (Some [1; n_rows; n_cols]) {["Number of Frames" := n_frames]}
    (minus_ln_frames (ds_data d)).

(** What the run copies from the group [src] of [files] into the fresh
    group [dst]: metadata for the extensions [h5] and [hdf5], else nothing. *)
Definition copied_metadata (files : gmap string file) (src dst : objref)
    (ext : string) : gmap string node * list event :=
  if bool_decide (ext = "h5") || bool_decide (ext = "hdf5")
  then metadata_outcome dst
         (field_value (init_state files) src "rotation_angle")
         (field_value (init_state files) src "energy")
         (field_value (init_state files) src "x_pixel_size")
         (field_value (init_state files) src "y_pixel_size") ∅
  else (∅, []).

(** The events of the frame loop. *)
Definition frame_events (src dst : objref) (i : nat) : list event :=
  [EvReadFrame src i; EvWriteFrame dst i].

(** The frames written, dataset and index, in the order of the writes. *)
Definition frames_written (tr : list event) : list (objref * nat) :=
  omap (λ e, match e with
             | EvWriteFrame ds i => Some (ds, i)
             | _ => None
             end) tr.

(** The messages printed, in order. *)
Definition printed (tr : list event) : list string :=
  omap (λ e, match e with EvPrint msg => Some msg | _ => None end) tr.

(** The methods entered, in order. *)
Definition calls (tr : list event) : list string :=
  omap (λ e, match e with EvCall fn => Some fn | _ => None end) tr.

(** A property of states that no operation on open containers undoes. *)
Record stable (P : state → Prop) : Prop := {
  stable_log : ∀ e s, P s → P (Build_state (fs s) (opened s) (trace s ++ [e]));
  stable_store : ∀ r v s, P s → P (store r v s);
  stable_opened : ∀ handles s, P s → P (Build_state (fs s) handles (trace s))
}.

(** The computation [c] keeps [P], however it ends. *)
Definition preserves (P : state → Prop) {A} (c : M A) : Prop :=
  ∀ s, P s → P (c s).2.

(** The container at [path] has been created by this run. *)
Definition created (path : string) (s : state) : Prop :=
  (∃ root, fs s !! path = Some (Container root))
  ∧ EvOpen path WriteTruncate ∈ trace s.

(** The completion notice of [minus_ln_stack]. *)
Definition converted_msg (fn : string) : string :=
  "Stack " +:+ fn +:+ " has been converted".

(** The reads and writes of frames, in order. *)
Definition frame_accesses (tr : list event) : list event :=
  omap (λ e, match e with
             | EvReadFrame _ _ | EvWriteFrame _ _ => Some e
             | _ => None
             end) tr.

(** An event that is neither a [close] nor the completion notice for [fn]. *)
Definition unfinished (fn : string) (e : event) : Prop :=
  match e with
  | EvClose _ => False
  | EvPrint msg => msg ≠ converted_msg fn
  | _ => True
  end.

(** [s'] comes after [s] with every handle of [s] still open, in the same
    order, and with a trace that continues the trace of [s] by events that
    satisfy [E]. *)
Definition extends (E : event → Prop) (s s' : state) : Prop :=
  (∃ handles, opened s' = opened s ++ handles)
  ∧ ∃ evs, trace s' = trace s ++ evs ∧ Forall E evs.

(** [s'] differs from [s] in no file other than [path]. *)
Definition same_files_but (path : string) (s s' : state) : Prop :=
  ∀ other, other ≠ path → fs s' !! other = fs s !! other.

(** A relation between the states before and after that the operations
    keep, as long as the events logged satisfy [E] and the files written to
    satisfy [W]. *)
Record step_relation (E : event → Prop) (W : string → Prop)
    (R : state → state → Prop) : Prop := {
  rel_refl : ∀ s, R s s;
  rel_trans : ∀ s1 s2 s3, R s1 s2 → R s2 s3 → R s1 s3;
  rel_log : ∀ e s, E e → R s (Build_state (fs s) (opened s) (trace s ++ [e]));
  rel_store : ∀ r v s, W (ref_file r) → R s (store r v s);
  rel_open : ∀ h s, R s (Build_state (fs s) (opened s ++ [h]) (trace s));
  rel_create :
    ∀ path s, W path →
      R s (Build_state (<[path := Container (Group ∅ ∅)]> (fs s))
             (opened s) (trace s))
}.

(** The computation [c] relates the state it starts from to the state it
    ends in, however it ends. *)
Definition within (R : state → state → Prop) {A} (c : M A) : Prop :=
  ∀ s, R s (c s).2.

(** The same for the runs of [c] that end in an exception. *)
Definition within_on_raise (R : state → state → Prop) {A} (c : M A) : Prop :=
  ∀ s e s', c s = (Raise e, s') → R s s'.

(** When [c] returns, it returns [x]. *)
Definition returns {A} (c : M A) (x : A) : Prop :=
  ∀ s y s', c s = (Ok y, s') → y = x.

(** The state [s] with the events [T] logged before its own. *)
Definition logged_before (T : list event) (s : state) : state :=
  Build_state (fs s) (opened s) (T ++ trace s).

(** The computation [c] does not look at the trace: after earlier events it
    runs as it does without them. *)
Definition trace_blind {A} (c : M A) : Prop :=
  ∀ T s, c (logged_before T s) = ((c s).1, logged_before T (c s).2).

End Lnstacks.

Arguments dataset : clear implicits.
Arguments ndarray : clear implicits.
Arguments node : clear implicits.
Arguments file : clear implicits.
Arguments state : clear implicits.
Arguments M : clear implicits.

Notation "x ← m ; k" := (bind m (λ x, k))
  (at level 20, m at level 100, k at level 200, only parsing).
Notation "m ;; k" := (bind m (λ _, k))
  (at level 100, k at level 200, right associativity).

(** ** A small file system to run the program on *)

Module Fixture.

(** Exact sample values, closed under [-ln]: 1, e, 0, -1, -e, the two
    infinities and NaN. *)
Inductive sample :=
| one | euler | zero | minus_one | minus_euler | inf | minus_inf | nan.

Definition sample_log (x : sample) : sample :=
  match x with
  | one => zero
  | euler => one
  | zero => minus_inf
  | inf => inf
  | minus_one | minus_euler | minus_inf | nan => nan
  end.

Definition sample_negative (x : sample) : sample :=
  match x with
  | one => minus_one
  | minus_one => one
  | euler => minus_euler
  | minus_euler => euler
  | zero => zero
  | inf => minus_inf
  | minus_inf => inf
  | nan => nan
  end.

#[global] Instance sample_numpy : Numpy sample := {|
  np_log := sample_log;
  np_negative := sample_negative;
  astype := λ _ x, x;
  fill_value := λ _, zero
|}.

(** Two frames of one row and two columns. *)
Definition stack : dataset sample :=
  Build_dataset [2; 1; 2] Float64 None ∅ [[one; one]; [euler; zero]].

Definition angles : dataset sample :=
  Build_dataset [2] Float64 None ∅ [[zero]; [one]].

Definition pixel_size : dataset sample :=
  Build_dataset [] Float64 None ∅ [[one]].

(** A group with the stack, the angles and both pixel sizes; no energy. *)
Definition tomo : node sample :=
  Group ∅ (<["TomoNormalized" := Dataset stack]>
          (<["rotation_angle" := Dataset angles]>
          (<["x_pixel_size" := Dataset pixel_size]>
           {["y_pixel_size" := Dataset pixel_size]}))).

(** A group with the stack, [x_pixel_size] without [y_pixel_size], a
    subgroup where the energy dataset should be, and no angles. *)
Definition partial : node sample :=
  Group ∅ (<["TomoNormalized" := Dataset stack]>
          (<["x_pixel_size" := Dataset pixel_size]>
           {["energy" := Group ∅ ∅]})).

Definition files : gmap string (file sample) :=
  <["/data/run01.hdf5" := Container (Group ∅ {["TomoNormalized" := tomo]})]>
  (<["/data/run02.HDF5" := Container (Group ∅ {["TomoNormalized" := tomo]})]>
  (<["/data/run03.h5" := Container (Group ∅ {["TomoNormalized" := partial]})]>
  (<["/data/empty.hdf5" := Container (Group ∅ ∅)]>
   {["/data/stack" := Container (Group ∅ {["TomoNormalized" := tomo]})]}))).

(** [files] after the destination group of a conversion has been created. *)
Definition files_with_destination : gmap string (file sample) :=
  <["/data/run01_ln.hdf5" :=
      Container (Group ∅ {["TomoNormalized" := Group ∅ ∅]})]> files.

(** A stack without any frame. *)
Definition no_frames : dataset sample :=
  Build_dataset [0; 1; 2] Float64 None ∅ [].

(** [files] with a container that holds the stack without frames, and with
    a file that is not an hdf5 container. *)
Definition more_files : gmap string (file sample) :=
  <["/data/none.hdf5" :=
      Container
        (Group ∅ {["TomoNormalized" :=
                    Group ∅ {["TomoNormalized" := Dataset no_frames]}]})]>
  (<["/data/scan.mrc" := NotHdf5]> files).

End Fixture.

(** * Properties *)

(** ** [rsplit] *)

Lemma rsplit_last_Some sep s a b :
  rsplit_last sep s = Some (a, b) → s = a +:+ String sep b.
Proof.
  revert a b. induction s as [|c s IH]; intros a b; simpl; [done|].
  destruct (rsplit_last sep s) as [[a' b']|].
  - intros [= <- <-]. by rewrite (IH a' b' eq_refl) at 1.
  - destruct (Ascii.eqb_spec c sep) as [->|]; [|done].
    by intros [= <- <-].
Qed.

Lemma rsplit_last_None sep s :
  rsplit_last sep s = None ↔ ¬ In sep (String.list_ascii_of_string s).
Proof.
  induction s as [|c s IH]; simpl; [tauto|].
  destruct (rsplit_last sep s) as [[a b]|].
  - split; [done|]. intros Hn. assert (Some (a, b) = None) as [=].
    apply IH. tauto.
  - destruct (Ascii.eqb_spec c sep) as [->|Hne].
    + split; [done|]. intros Hn. exfalso. apply Hn. by left.
    + split; [|done]. intros _ [?|Hin]; [done|]. by apply IH.
Qed.

Lemma out_name_ne fn stem ext :
  rsplit_last "." fn = Some (stem, ext) → stem +:+ "_ln.hdf5" ≠ fn.
Proof.
  intros Hs Heq. apply rsplit_last_Some in Hs. subst fn.
  induction stem as [|c stem IH]; simpl in Heq; [done|].
  injection Heq as Heq. by apply IH.
Qed.

Lemma rsplit_last_tail sep s a b :
  rsplit_last sep s = Some (a, b) → rsplit_last sep b = None.
Proof.
  revert a b. induction s as [|c s IH]; intros a b; simpl; [done|].
  destruct (rsplit_last sep s) as [[a' b']|] eqn:Hs.
  - intros [= <- <-]. by eapply IH.
  - destruct (Ascii.eqb c sep); [|done]. by intros [= <- <-].
Qed.

Lemma rsplit_last_app sep a b :
  rsplit_last sep b = None →
  rsplit_last sep (a +:+ String sep b) = Some (a, b).
Proof.
  intros Hb. induction a as [|c a IH]; simpl.
  - by rewrite Hb, Ascii.eqb_refl.
  - by rewrite IH.
Qed.

Lemma append_assoc (a b c : string) : (a +:+ b) +:+ c = a +:+ (b +:+ c).
Proof.
  induction a as [|x a IH]; [done|].
  change (String x ((a +:+ b) +:+ c) = String x (a +:+ (b +:+ c))).
  by rewrite IH.
Qed.


Lemma rsplit_last_nonempty sep fn stem ext :
  rsplit_last sep fn = Some (stem, ext) → fn ≠ EmptyString.
Proof. by intros Hs ->. Qed.

Lemma out_name_nonempty stem : stem +:+ "_ln.hdf5" ≠ EmptyString.
Proof. by destruct stem. Qed.

Section Properties.

Context {pixel : Type} `{!Numpy pixel}.

Implicit Types (s : state pixel) (r grp ds : objref) (n v : node pixel)
  (d : dataset pixel) (m dm : gmap string (node pixel))
  (a : gmap string nat) (name k : string).

(** ** The monad *)

Lemma bind_ok {A B} (c : M pixel A) (f : A → M pixel B) s x s' :
  c s = (Ok x, s') → bind c f s = f x s'.
Proof. unfold bind. by intros ->. Qed.

Lemma bind_raise {A B} (c : M pixel A) (f : A → M pixel B) s e s' :
  c s = (Raise e, s') → bind c f s = (Raise e, s').
Proof. unfold bind. by intros ->. Qed.

Lemma bind_assoc {A B C} (c : M pixel A) (f : A → M pixel B)
    (g : B → M pixel C) s :
  bind (bind c f) g s = bind c (λ x, bind (f x) g) s.
Proof. unfold bind. by destruct (c s) as [[x|e] s']. Qed.

Lemma is_Exception_all e : is_Exception e = true.
Proof. by destruct e. Qed.

Lemma try_except_total body catches handler :
  (∀ e, catches e = true) →
  (∀ s, ∃ s', handler s = (Ok tt, s')) →
  ∀ s, ∃ s', try_except body catches handler s = (Ok tt, s').
Proof.
  intros Hc Hh s. unfold try_except.
  destruct (body s) as [[[]|e] s1]; [by eexists|].
  rewrite Hc. apply Hh.
Qed.

Lemma bind_Ok_inv {A B} (c : M pixel A) (f : A → M pixel B) s y s' :
  bind c f s = (Ok y, s') → ∃ x s1, c s = (Ok x, s1) ∧ f x s1 = (Ok y, s').
Proof.
  unfold bind. destruct (c s) as [[x|e] s1]; [|done]. intros Hf.
  by exists x, s1.
Qed.

(** [minus_ln_stack] has no [return] statement. *)
Lemma minus_ln_stack_returns input tree dataset s y s' :
  minus_ln_stack input tree dataset s = (Ok y, s') → y = PyNone.
Proof.
  destruct input as [fn|]; [|done]. unfold minus_ln_stack. intros Hrun.
  repeat (apply bind_Ok_inv in Hrun; destruct Hrun as (? & ? & _ & Hrun)).
  by injection Hrun.
Qed.

(** ** What every operation preserves *)

Section Preserves.

Variable P : state pixel → Prop.
Hypothesis HP : stable P.

Lemma preserves_ret {A} (x : A) : preserves P (ret x).
Proof. by intros s. Qed.

Lemma preserves_raise {A} e : preserves P (raise (A := A) e).
Proof. by intros s. Qed.

Lemma preserves_log e : preserves P (log e).
Proof. intros s. apply HP. Qed.

Lemma preserves_bind {A B} (c : M pixel A) (f : A → M pixel B) :
  preserves P c → (∀ x, preserves P (f x)) → preserves P (bind c f).
Proof.
  intros Hc Hf s Hs. unfold bind. specialize (Hc s Hs).
  destruct (c s) as [[x|e] s1]; [by apply Hf|done].
Qed.

Lemma preserves_try_except body catches handler :
  preserves P body → preserves P handler →
  preserves P (try_except body catches handler).
Proof.
  intros Hb Hh s Hs. unfold try_except. specialize (Hb s Hs).
  destruct (body s) as [[x|e] s1]; [done|].
  destruct (catches e); [by apply Hh|done].
Qed.

Lemma preserves_for_each {A} (l : list A) body :
  (∀ x, preserves P (body x)) → preserves P (for_each l body).
Proof.
  intros Hb. induction l as [|x l IH]; simpl.
  - apply preserves_ret.
  - by apply preserves_bind.
Qed.

Lemma preserves_getitem_seq {A} (l : list A) i : preserves P (getitem_seq l i).
Proof. intros s. unfold getitem_seq. by destruct (l !! i). Qed.

Lemma preserves_getitem obj name : preserves P (getitem obj name).
Proof.
  intros s. unfold getitem.
  destruct (resolve s obj) as [[?|? m]|]; try done. by destruct (m !! name).
Qed.

Lemma preserves_shape obj : preserves P (shape obj).
Proof. intros s. unfold shape. by destruct (resolve s obj) as [[?|? ?]|]. Qed.

Lemma preserves_value obj : preserves P (value obj).
Proof. intros s. unfold value. by destruct (resolve s obj) as [[?|? ?]|]. Qed.

Lemma preserves_create_group grp name : preserves P (create_group grp name).
Proof.
  intros s Hs. unfold create_group.
  destruct (resolve s grp) as [[?|? m]|]; try done.
  destruct (m !! name); [done|]. simpl. by apply HP, HP.
Qed.

Lemma preserves_add_dataset grp name d : preserves P (add_dataset grp name d).
Proof.
  intros s Hs. unfold add_dataset.
  destruct (resolve s grp) as [[?|? m]|]; try done.
  destruct (m !! name); [done|]. simpl. by apply HP, HP.
Qed.

Lemma preserves_create_dataset grp name shp chunks t :
  preserves P (create_dataset grp name shp chunks t).
Proof.
  unfold create_dataset. destruct (chunks_ok shp chunks).
  - apply preserves_add_dataset.
  - apply preserves_raise.
Qed.

Lemma preserves_attrs_setitem obj key x : preserves P (attrs_setitem obj key x).
Proof.
  intros s Hs. unfold attrs_setitem.
  destruct (resolve s obj) as [[?|? ?]|]; try done; simpl; by apply HP, HP.
Qed.

Lemma preserves_dataset_getitem ds i : preserves P (dataset_getitem ds i).
Proof.
  intros s Hs. unfold dataset_getitem.
  destruct (resolve s ds) as [[d|? ?]|]; try done.
  destruct (ds_data d !! i); [|done]. simpl. by apply HP.
Qed.

Lemma preserves_dataset_setitem ds i fr : preserves P (dataset_setitem ds i fr).
Proof.
  intros s Hs. unfold dataset_setitem.
  destruct (resolve s ds) as [[d|? ?]|]; try done.
  repeat case_bool_decide; try done. simpl. by apply HP, HP.
Qed.

Lemma preserves_close f : preserves P (close f).
Proof.
  intros s Hs. unfold close, bind, log. simpl.
  apply (stable_log _ HP _ (Build_state _ _ _)).
  by apply (stable_opened _ HP).
Qed.

Lemma preserves_copy_metadata src dst : preserves P (copy_metadata src dst).
Proof.
  unfold copy_metadata, create_dataset_data, print.
  repeat first
    [ apply preserves_try_except
    | apply preserves_log
    | apply preserves_ret
    | apply preserves_getitem
    | apply preserves_value
    | apply preserves_add_dataset
    | apply preserves_bind; [|intros ?] ].
Qed.

End Preserves.

(** Goes through a computation made of the operations above. *)
Ltac preserves_steps :=
  repeat first
    [ done
    | apply preserves_ret
    | apply preserves_log
    | apply preserves_for_each; intros ?
    | apply preserves_getitem_seq
    | apply preserves_getitem
    | apply preserves_shape
    | apply preserves_create_group
    | apply preserves_copy_metadata
    | apply preserves_create_dataset
    | apply preserves_attrs_setitem
    | apply preserves_dataset_getitem
    | apply preserves_dataset_setitem
    | apply preserves_close
    | destruct (_ || _)
    | apply preserves_bind; [|intros ?] ].

(** ** The store *)

Lemma node_lookup_app p q n :
  node_lookup (p ++ q) n = node_lookup p n ≫= node_lookup q.
Proof.
  revert n. induction p as [|k p IH]; intros n; simpl; [done|].
  destruct n as [d|a m]; [done|].
  destruct (m !! k) as [n'|]; simpl; [apply IH|done].
Qed.

Lemma node_lookup_store_eq p v n :
  is_Some (node_lookup p n) → node_lookup p (node_store p v n) = Some v.
Proof.
  revert n. induction p as [|k p IH]; intros n; simpl; [done|].
  destruct n as [d|a m]; [by intros [? [=]]|].
  rewrite lookup_alter_eq.
  destruct (m !! k) as [n'|]; simpl; [apply IH|by intros [? [=]]].
Qed.

Lemma node_lookup_store_child p k v n a m :
  node_lookup p n = Some (Group a m) → is_Some (m !! k) →
  node_lookup p (node_store (p ++ [k]) v n) = Some (Group a (<[k:=v]> m)).
Proof.
  revert n. induction p as [|k' p IH]; intros n; simpl.
  - intros [= ->] [x Hx]. by rewrite (alter_alt_Some _ _ _ _ Hx).
  - destruct n as [d|a' m']; [done|].
    rewrite lookup_alter_eq.
    destruct (m' !! k') as [n'|]; simpl; [apply IH|done].
Qed.

Lemma resolve_store_eq r v s :
  is_Some (resolve s r) → resolve (store r v s) r = Some v.
Proof.
  unfold resolve, store.
  destruct (fs s !! ref_file r) as [[root|]|] eqn:Hf;
    rewrite ?Hf; try by intros [? [=]].
  simpl. rewrite lookup_insert_eq. apply node_lookup_store_eq.
Qed.

Lemma fs_store_ne r v s path :
  path ≠ ref_file r → fs (store r v s) !! path = fs s !! path.
Proof.
  intros Hne. unfold store.
  destruct (fs s !! ref_file r) as [[root|]|]; [|done..].
  simpl. by rewrite lookup_insert_ne.
Qed.

Lemma resolve_agree s s' r :
  fs s' !! ref_file r = fs s !! ref_file r → resolve s' r = resolve s r.
Proof. unfold resolve. by intros ->. Qed.

Lemma resolve_child s r k :
  resolve s (child r k) = resolve s r ≫= node_lookup [k].
Proof.
  unfold resolve, child. simpl.
  destruct (fs s !! ref_file r) as [[root|]|]; [|done..].
  apply node_lookup_app.
Qed.

Lemma resolve_member s r k a m :
  resolve s r = Some (Group a m) → resolve s (child r k) = m !! k.
Proof.
  intros Hr. rewrite resolve_child, Hr. simpl. by destruct (m !! k).
Qed.

Lemma resolve_store_child r k v s a m :
  resolve s r = Some (Group a m) → is_Some (m !! k) →
  resolve (store (child r k) v s) r = Some (Group a (<[k:=v]> m)).
Proof.
  unfold resolve, store, child. simpl.
  destruct (fs s !! ref_file r) as [[root|]|] eqn:Hf; rewrite ?Hf; [|done..].
  intros Hn Hk. simpl. rewrite lookup_insert_eq.
  by apply node_lookup_store_child.
Qed.

Lemma resolve_store_grp_eq r v s a m :
  resolve s r = Some (Group a m) → resolve (store r v s) r = Some v.
Proof. intros Hr. apply resolve_store_eq. by rewrite Hr. Qed.

Lemma opened_store r v s : opened (store r v s) = opened s.
Proof. unfold store. by destruct (fs s !! ref_file r) as [[?|]|]. Qed.

Lemma trace_store r v s : trace (store r v s) = trace s.
Proof. unfold store. by destruct (fs s !! ref_file r) as [[?|]|]. Qed.

Lemma created_stable path : stable (created (pixel := pixel) path).
Proof.
  split.
  - intros e s [Hf Ht]. split; [done|]. simpl. set_solver.
  - intros r v s [[root Hf] Ht]. split; [|by rewrite trace_store].
    unfold store. destruct (fs s !! ref_file r) as [[root'|]|] eqn:Hr;
      [|by eauto..].
    simpl. destruct (decide (ref_file r = path)) as [->|Hne].
    + rewrite lookup_insert_eq. eauto.
    + rewrite lookup_insert_ne by done. eauto.
  - by intros handles s [Hf Ht].
Qed.

(** ** The destination group under the operations *)

Section DestView.

Variable files : gmap string (file pixel).
Variable grp : objref.

Lemma view_log e s a dm O T :
  dest_view files grp s a dm O T →
  dest_view files grp (Build_state (fs s) (opened s) (trace s ++ [e]))
    a dm O (T ++ [e]).
Proof. intros (Hr & Hfs & HO & HT). unfold dest_view. simpl. by subst. Qed.

Lemma view_store_grp s a dm a' dm' O T :
  dest_view files grp s a dm O T →
  dest_view files grp (store grp (Group a' dm') s) a' dm' O T.
Proof.
  intros (Hr & Hfs & HO & HT). repeat split.
  - eapply resolve_store_grp_eq, Hr.
  - intros path Hp. rewrite fs_store_ne by done. by apply Hfs.
  - by rewrite opened_store.
  - by rewrite trace_store.
Qed.

Lemma view_store_child s a dm k v O T :
  dest_view files grp s a dm O T → is_Some (dm !! k) →
  dest_view files grp (store (child grp k) v s) a (<[k:=v]> dm) O T.
Proof.
  intros (Hr & Hfs & HO & HT) Hk. repeat split.
  - by apply resolve_store_child.
  - intros path Hp. rewrite fs_store_ne by done. by apply Hfs.
  - by rewrite opened_store.
  - by rewrite trace_store.
Qed.

(** Objects of other files are those of [files]. *)
Lemma view_resolve_other s a dm O T r :
  dest_view files grp s a dm O T → ref_file r ≠ ref_file grp →
  resolve s r = resolve (init_state files) r.
Proof. intros (_ & Hfs & _) Hne. apply resolve_agree. simpl. by apply Hfs. Qed.

Lemma view_field_value s a dm O T src name :
  dest_view files grp s a dm O T → ref_file src ≠ ref_file grp →
  field_value s src name = field_value (init_state files) src name.
Proof.
  intros Hv Hne. unfold field_value.
  by rewrite (view_resolve_other _ _ _ _ _ (child src name) Hv).
Qed.

Lemma getitem_view s a dm O T name :
  dest_view files grp s a dm O T → is_Some (dm !! name) →
  getitem grp name s = (Ok (child grp name), s).
Proof.
  intros (Hr & _) [x Hx]. unfold getitem. by rewrite Hr, Hx.
Qed.

Lemma add_dataset_view s a dm O T name d :
  dest_view files grp s a dm O T → dm !! name = None →
  ∃ s', add_dataset grp name d s = (Ok (child grp name), s')
        ∧ dest_view files grp s' a (<[name := Dataset d]> dm) O
            (T ++ [EvCreateDataset grp name]).
Proof.
  intros Hv Hn. pose proof Hv as (Hr & _).
  unfold add_dataset. rewrite Hr, Hn. eexists. split; [done|].
  by apply view_log, view_store_grp with a dm.
Qed.

Lemma add_dataset_exists s a dm O T name d :
  dest_view files grp s a dm O T → is_Some (dm !! name) →
  add_dataset grp name d s = (Raise ValueError, s).
Proof.
  intros (Hr & _) [x Hx]. unfold add_dataset. by rewrite Hr, Hx.
Qed.

Lemma attrs_setitem_view s a dm O T name d key x :
  dest_view files grp s a dm O T → dm !! name = Some (Dataset d) →
  ∃ s', attrs_setitem (child grp name) key x s = (Ok tt, s')
        ∧ dest_view files grp s' a
            (<[name := Dataset (Build_dataset (ds_shape d) (ds_dtype d)
                                  (ds_chunks d) (<[key := x]> (ds_attrs d))
                                  (ds_data d))]> dm) O
            (T ++ [EvSetAttr (child grp name) key]).
Proof.
  intros Hv Hn. pose proof Hv as (Hr & _).
  unfold attrs_setitem. rewrite (resolve_member _ _ _ _ _ Hr), Hn.
  eexists. split; [done|]. by apply view_log, view_store_child.
Qed.

Lemma dataset_setitem_view s a dm O T name d i fr :
  dest_view files grp s a dm O T → dm !! name = Some (Dataset d) →
  i < length (ds_data d) → length fr = product (tail (ds_shape d)) →
  ∃ s', dataset_setitem (child grp name) i fr s = (Ok tt, s')
        ∧ dest_view files grp s' a
            (<[name := Dataset (Build_dataset (ds_shape d) (ds_dtype d)
                                  (ds_chunks d) (ds_attrs d)
                                  (<[i := astype (ds_dtype d) <$> fr]>
                                     (ds_data d)))]> dm) O
            (T ++ [EvWriteFrame (child grp name) i]).
Proof.
  intros Hv Hn Hi Hfr. pose proof Hv as (Hr & _).
  unfold dataset_setitem. rewrite (resolve_member _ _ _ _ _ Hr), Hn.
  rewrite !bool_decide_eq_true_2 by done.
  eexists. split; [done|]. by apply view_log, view_store_child.
Qed.

Lemma dataset_getitem_view s a dm O T ds d i fr :
  dest_view files grp s a dm O T → ref_file ds ≠ ref_file grp →
  resolve (init_state files) ds = Some (Dataset d) →
  ds_data d !! i = Some fr →
  ∃ s', dataset_getitem ds i s = (Ok fr, s')
        ∧ dest_view files grp s' a dm O (T ++ [EvReadFrame ds i]).
Proof.
  intros Hv Hne Hd Hi. unfold dataset_getitem.
  rewrite (view_resolve_other _ _ _ _ _ _ Hv Hne), Hd, Hi.
  eexists. split; [done|]. by apply view_log.
Qed.

Lemma close_view s a dm O T f :
  dest_view files grp s a dm O T →
  ∃ s', close f s = (Ok tt, s')
        ∧ dest_view files grp s' a dm
            (filter (λ h, h.1 ≠ ref_file f) O) (T ++ [EvClose (ref_file f)]).
Proof.
  intros (Hr & Hfs & HO & HT). unfold close, bind, log. simpl.
  eexists. split; [done|]. unfold dest_view. simpl. by subst.
Qed.

Lemma create_dataset_view s a dm O T name n_frames n_rows n_cols t :
  dest_view files grp s a dm O T → dm !! name = None →
  0 < n_frames → 0 < n_rows → 0 < n_cols →
  ∃ s', create_dataset grp name [n_frames; n_rows; n_cols]
          [1; n_rows; n_cols] t s = (Ok (child grp name), s')
        ∧ dest_view files grp s' a
            (<[name := Dataset
                         (Build_dataset [n_frames; n_rows; n_cols] t
                            (Some [1; n_rows; n_cols]) ∅
                            (empty_data [n_frames; n_rows; n_cols] t))]> dm)
            O (T ++ [EvCreateDataset grp name]).
Proof.
  intros Hv Hn ? ? ?. unfold create_dataset, chunks_ok. simpl.
  rewrite !bool_decide_eq_true_2 by lia. simpl.
  by apply add_dataset_view.
Qed.

Lemma read_field_Some s src name arr :
  field_value s src name = Some arr →
  (r ← getitem src name; value r) s = (Ok arr, s).
Proof.
  unfold field_value, bind, getitem, value. rewrite resolve_child.
  destruct (resolve s src) as [[d|a m]|] eqn:Hs; simpl; try done.
  destruct (m !! name) as [[d|a' m']|] eqn:Hm; simpl; try done.
  intros [= <-]. by rewrite (resolve_member _ _ _ _ _ Hs), Hm.
Qed.

Lemma read_field_None s src name :
  field_value s src name = None →
  ∃ e, (r ← getitem src name; value r) s = (Raise e, s).
Proof.
  unfold field_value, bind, getitem, value. rewrite resolve_child.
  destruct (resolve s src) as [[d|a m]|] eqn:Hs; simpl; eauto.
  destruct (m !! name) as [[d|a' m']|] eqn:Hm; simpl; try done; eauto.
  intros _. rewrite (resolve_member _ _ _ _ _ Hs), Hm. eauto.
Qed.

(** A single-field block of [copy_metadata] realises [copy_one]. *)
Lemma copy_one_view s a dm O T src name msg :
  dest_view files grp s a dm O T →
  ∃ s', try_except
          (arr ← (r ← getitem src name; value r);
           create_dataset_data grp name arr ;; ret tt)
          any_exception (print msg) s = (Ok tt, s')
        ∧ dest_view files grp s' a
            (copy_one grp name msg (field_value s src name) dm).1 O
            (T ++ (copy_one grp name msg (field_value s src name) dm).2).
Proof.
  intros Hv. unfold try_except, copy_one.
  destruct (field_value s src name) as [arr|] eqn:Hf.
  - rewrite (bind_ok _ _ _ _ _ (read_field_Some _ _ _ _ Hf)).
    unfold create_dataset_data.
    destruct (dm !! name) as [x|] eqn:Hn.
    + rewrite (bind_raise _ _ _ _ _
                 (add_dataset_exists _ _ _ _ _ _ _ Hv (mk_is_Some _ _ Hn))).
      simpl. eexists. split; [done|]. by apply view_log.
    + destruct (add_dataset_view _ _ _ _ _ _ (dataset_of arr) Hv Hn)
        as (s1 & Hrun & Hv1).
      rewrite (bind_ok _ _ _ _ _ Hrun). simpl. eauto.
  - destruct (read_field_None _ _ _ Hf) as [e He].
    rewrite (bind_raise _ _ _ _ _ He). simpl.
    eexists. split; [done|]. by apply view_log.
Qed.

(** The pixel-size block realises [copy_pair]. *)
Lemma copy_pair_view s a dm O T src :
  dest_view files grp s a dm O T →
  ∃ s', try_except
          (x_pixel_size ← (r ← getitem src "x_pixel_size"; value r);
           y_pixel_size ← (r ← getitem src "y_pixel_size"; value r);
           create_dataset_data grp "x_pixel_size" x_pixel_size ;;
           create_dataset_data grp "y_pixel_size" y_pixel_size ;;
           ret tt)
          is_Exception (print pixel_size_msg) s = (Ok tt, s')
        ∧ dest_view files grp s' a
            (copy_pair grp (field_value s src "x_pixel_size")
               (field_value s src "y_pixel_size") dm).1 O
            (T ++ (copy_pair grp (field_value s src "x_pixel_size")
                     (field_value s src "y_pixel_size") dm).2).
Proof.
  intros Hv. unfold try_except, copy_pair.
  destruct (field_value s src "x_pixel_size") as [ax|] eqn:Hx; cycle 1.
  { destruct (read_field_None _ _ _ Hx) as [e He].
    rewrite (bind_raise _ _ _ _ _ He), is_Exception_all. simpl.
    eexists. split; [done|]. by apply view_log. }
  rewrite (bind_ok _ _ _ _ _ (read_field_Some _ _ _ _ Hx)).
  destruct (field_value s src "y_pixel_size") as [ay|] eqn:Hy; cycle 1.
  { destruct (read_field_None _ _ _ Hy) as [e He].
    rewrite (bind_raise _ _ _ _ _ He), is_Exception_all. simpl.
    eexists. split; [done|]. by apply view_log. }
  rewrite (bind_ok _ _ _ _ _ (read_field_Some _ _ _ _ Hy)).
  unfold create_dataset_data.
  destruct (dm !! "x_pixel_size") as [x|] eqn:Hnx.
  { rewrite (bind_raise _ _ _ _ _
               (add_dataset_exists _ _ _ _ _ _ _ Hv (mk_is_Some _ _ Hnx))).
    simpl. eexists. split; [done|]. by apply view_log. }
  destruct (add_dataset_view _ _ _ _ _ _ (dataset_of ax) Hv Hnx)
    as (s1 & Hrun1 & Hv1).
  rewrite (bind_ok _ _ _ _ _ Hrun1).
  destruct (dm !! "y_pixel_size") as [y|] eqn:Hny.
  - assert (is_Some (<["x_pixel_size" := Dataset (dataset_of ax)]> dm
                       !! "y_pixel_size")) as Hy'.
    { rewrite lookup_insert_ne by done. by rewrite Hny. }
    rewrite (bind_raise _ _ _ _ _
               (add_dataset_exists _ _ _ _ _ _ _ Hv1 Hy')).
    simpl. eexists. split; [done|].
    apply (view_log (EvPrint pixel_size_msg)) in Hv1.
    by rewrite <- app_assoc in Hv1.
  - assert (<["x_pixel_size" := Dataset (dataset_of ax)]> dm
              !! "y_pixel_size" = None) as Hy'.
    { by rewrite lookup_insert_ne. }
    destruct (add_dataset_view _ _ _ _ _ _ (dataset_of ay) Hv1 Hy')
      as (s2 & Hrun2 & Hv2).
    rewrite (bind_ok _ _ _ _ _ Hrun2). simpl.
    eexists. split; [done|]. by rewrite <- app_assoc in Hv2.
Qed.

(** [copy_metadata] realises [metadata_outcome] on the values of the four
    fields in the source. *)
Lemma copy_metadata_view s a dm O T src :
  dest_view files grp s a dm O T → ref_file src ≠ ref_file grp →
  let out :=
    metadata_outcome grp
      (field_value (init_state files) src "rotation_angle")
      (field_value (init_state files) src "energy")
      (field_value (init_state files) src "x_pixel_size")
      (field_value (init_state files) src "y_pixel_size") dm in
  ∃ s', copy_metadata src grp s = (Ok tt, s')
        ∧ dest_view files grp s' a out.1 O (T ++ out.2).
Proof.
  intros Hv Hne out. unfold copy_metadata.
  apply (view_log (EvCall "copy_metadata")) in Hv.
  rewrite (bind_ok (log (EvCall "copy_metadata")) _ s tt _ eq_refl).
  destruct (copy_one_view _ _ _ _ _ src "rotation_angle" angles_msg Hv)
    as (s1 & Hrun1 & Hv1).
  rewrite (bind_ok _ _ _ _ _ Hrun1).
  rewrite (view_field_value _ _ _ _ _ _ _ Hv Hne) in Hv1.
  destruct (copy_one_view _ _ _ _ _ src "energy" energies_msg Hv1)
    as (s2 & Hrun2 & Hv2).
  rewrite (bind_ok _ _ _ _ _ Hrun2).
  rewrite (view_field_value _ _ _ _ _ _ _ Hv1 Hne) in Hv2.
  destruct (copy_pair_view _ _ _ _ _ src Hv2) as (s3 & Hrun3 & Hv3).
  rewrite Hrun3.
  rewrite !(view_field_value _ _ _ _ _ _ _ Hv2 Hne) in Hv3.
  eexists. split; [done|].
  unfold out, metadata_outcome. simpl.
  by rewrite <- !app_assoc in Hv3.
Qed.

End DestView.

(** ** Metadata outcomes *)

Lemma copy_one_lookup_ne dst name msg (val : option (ndarray pixel)) dm k :
  k ≠ name → (copy_one dst name msg val dm).1 !! k = dm !! k.
Proof.
  intros Hne. unfold copy_one.
  destruct val as [arr|], (dm !! name); simpl; try done.
  by rewrite lookup_insert_ne.
Qed.

Lemma copy_pair_lookup_ne dst vx vy dm k :
  k ≠ "x_pixel_size" → k ≠ "y_pixel_size" →
  (copy_pair dst vx vy dm).1 !! k = dm !! k.
Proof.
  intros Hx Hy. unfold copy_pair.
  destruct vx, vy, (dm !! "x_pixel_size"), (dm !! "y_pixel_size");
    simpl; by rewrite ?lookup_insert_ne.
Qed.

Lemma metadata_outcome_lookup_ne dst vr ve vx vy dm k :
  k ∉ metadata_fields →
  (metadata_outcome dst vr ve vx vy dm).1 !! k = dm !! k.
Proof.
  unfold metadata_fields. rewrite !not_elem_of_cons. intros (? & ? & ? & ? & _).
  unfold metadata_outcome. simpl.
  rewrite copy_pair_lookup_ne by done.
  by rewrite !copy_one_lookup_ne.
Qed.

Lemma copy_one_lookup_eq dst name msg (val : option (ndarray pixel)) dm :
  dm !! name = None →
  (copy_one dst name msg val dm).1 !! name
  = (λ arr, Dataset (dataset_of arr)) <$> val.
Proof.
  intros Hn. unfold copy_one. rewrite Hn.
  destruct val; simpl; [apply lookup_insert_eq|done].
Qed.

Lemma copy_pair_both dst (ax ay : ndarray pixel) dm :
  dm !! "x_pixel_size" = None → dm !! "y_pixel_size" = None →
  (copy_pair dst (Some ax) (Some ay) dm).1
  = <["y_pixel_size" := Dataset (dataset_of ay)]>
      (<["x_pixel_size" := Dataset (dataset_of ax)]> dm).
Proof. intros Hx Hy. unfold copy_pair. by rewrite Hx, Hy. Qed.

Lemma copy_pair_neither dst (vx vy : option (ndarray pixel)) dm :
  vx = None ∨ vy = None → (copy_pair dst vx vy dm).1 = dm.
Proof.
  unfold copy_pair. intros [-> | ->]; [done|]. by destruct vx.
Qed.

Lemma ext_gate ext :
  bool_decide (ext = "h5") || bool_decide (ext = "hdf5") = true
  ↔ ext = "h5" ∨ ext = "hdf5".
Proof. by rewrite orb_true_iff, !bool_decide_eq_true. Qed.

Lemma no_call_in_frames fname src dst l :
  EvCall fname ∉ flat_map (frame_events src dst) l.
Proof.
  induction l as [|i l IH]; simpl; [set_solver|].
  rewrite !not_elem_of_cons. by split_and!.
Qed.

Lemma frames_written_copy_one dst name msg (val : option (ndarray pixel)) dm :
  frames_written (copy_one dst name msg val dm).2 = [].
Proof. unfold copy_one. by destruct val, (dm !! name). Qed.

Lemma frames_written_copy_pair dst (vx vy : option (ndarray pixel)) dm :
  frames_written (copy_pair dst vx vy dm).2 = [].
Proof.
  unfold copy_pair.
  by destruct vx, vy, (dm !! "x_pixel_size"), (dm !! "y_pixel_size").
Qed.

Lemma frames_written_copied (files : gmap string (file pixel)) src dst ext :
  frames_written (copied_metadata files src dst ext).2 = [].
Proof.
  unfold copied_metadata, metadata_outcome, frames_written.
  destruct (_ || _); [|done]. simpl.
  rewrite !omap_app.
  change (omap _ ?l) with (frames_written l).
  by rewrite !frames_written_copy_one, frames_written_copy_pair.
Qed.

Lemma frames_written_loop src dst l :
  frames_written (flat_map (frame_events src dst) l) = (λ i, (dst, i)) <$> l.
Proof. induction l as [|i l IH]; simpl; [done|]. by f_equal. Qed.

(** C6: [copy_metadata] treats the pixel sizes as a pair.  Called with a
    source group and a destination group of another container that has
    neither pixel size yet, it leaves the destination with both
    [x_pixel_size] and [y_pixel_size], holding the values read, when both
    can be read from the source, and with neither of them when either read
    fails: the destination never holds exactly one of the two. *)
Theorem pixel_size_pair_atomic s src dst a dm :
  ref_file src ≠ ref_file dst →
  resolve s dst = Some (Group a dm) →
  dm !! "x_pixel_size" = None → dm !! "y_pixel_size" = None →
  ∃ s' dm',
    copy_metadata src dst s = (Ok tt, s')
    ∧ resolve s' dst = Some (Group a dm')
    ∧ (is_Some (dm' !! "x_pixel_size") ∧ is_Some (dm' !! "y_pixel_size")
       ↔ is_Some (field_value s src "x_pixel_size")
         ∧ is_Some (field_value s src "y_pixel_size"))
    ∧ (is_Some (dm' !! "x_pixel_size") ↔ is_Some (dm' !! "y_pixel_size"))
    ∧ (∀ ax ay,
         field_value s src "x_pixel_size" = Some ax →
         field_value s src "y_pixel_size" = Some ay →
         dm' !! "x_pixel_size" = Some (Dataset (dataset_of ax))
         ∧ dm' !! "y_pixel_size" = Some (Dataset (dataset_of ay)))
    ∧ (field_value s src "x_pixel_size" = None
       ∨ field_value s src "y_pixel_size" = None →
       dm' !! "x_pixel_size" = None ∧ dm' !! "y_pixel_size" = None).
Proof.
  intros Hne Hdst Hx Hy.
  assert (dest_view (fs s) dst s a dm (opened s) (trace s)) as Hv.
  { by split_and!. }
  destruct (copy_metadata_view _ _ _ _ _ _ _ src Hv Hne)
    as (s' & Hrun & Hr & _).
  change (field_value (init_state (fs s))) with (field_value s) in Hr.
  eexists s', _. split; [done|]. split; [exact Hr|].
  unfold metadata_outcome. simpl.
  set (dm2 := (copy_one dst "energy" _ _ _).1).
  assert (dm2 !! "x_pixel_size" = None) as Hx2.
  { subst dm2. by rewrite !copy_one_lookup_ne. }
  assert (dm2 !! "y_pixel_size" = None) as Hy2.
  { subst dm2. by rewrite !copy_one_lookup_ne. }
  destruct (field_value s src "x_pixel_size") as [ax|] eqn:Hvx,
    (field_value s src "y_pixel_size") as [ay|] eqn:Hvy.
  - rewrite copy_pair_both by done.
    rewrite lookup_insert_ne, !lookup_insert_eq by done.
    split_and!; try done; naive_solver.
  - rewrite copy_pair_neither, Hx2, Hy2 by auto.
    unfold is_Some. split_and!; try done; naive_solver.
  - rewrite copy_pair_neither, Hx2, Hy2 by auto.
    unfold is_Some. split_and!; try done; naive_solver.
  - rewrite copy_pair_neither, Hx2, Hy2 by auto.
    unfold is_Some. split_and!; try done; naive_solver.
Qed.

(** ** Argument check, naming of the output, stub *)

(** C4: an input path that is absent ([None]) or the empty string makes
    [minus_ln_stack] fail with [ValueError], the state being left as it was:
    no file has been looked up, opened or created and nothing is in the
    trace.  For [None] the error is raised by the check of the argument; the
    empty string passes that check and is refused by [h5py.File], which
    rejects an empty name before it reaches the file system. *)
Theorem absent_or_empty_input_rejected input tree dataset s :
  input = None ∨ input = Some EmptyString →
  minus_ln_stack input tree dataset s = (Raise ValueError, s).
Proof. by intros [-> | ->]. Qed.

(** C3, as the code has it: for an input path with an extension that names
    an hdf5 container, the destination container is created at the path
    made of the input path without its last dot-separated segment, followed
    by [_ln.hdf5], whether or not the conversion then succeeds; the call
    returns [None], not that path. *)
Theorem destination_created (files : gmap string (file pixel))
    fn tree dataset stem ext root :
  rsplit fn "." = [stem; ext] →
  files !! fn = Some (Container root) →
  ∃ res s',
    minus_ln_stack (Some fn) tree dataset (init_state files) = (res, s')
    ∧ (∃ root', fs s' !! (stem +:+ "_ln.hdf5") = Some (Container root'))
    ∧ EvOpen (stem +:+ "_ln.hdf5") WriteTruncate ∈ trace s'
    ∧ (∀ y, res = Ok y → y = PyNone).
Proof.
  intros Hsplit Hfile.
  destruct (minus_ln_stack _ _ _ _) as [res s'] eqn:Hrun.
  exists res, s'. split; [done|].
  enough (created (stem +:+ "_ln.hdf5") s') as [? ?].
  { split_and!; [done..|]. intros y ->. by eapply minus_ln_stack_returns. }
  replace s' with
    (minus_ln_stack (Some fn) tree dataset (init_state files)).2
    by (by rewrite Hrun).
  assert (rsplit_last "." fn = Some (stem, ext)) as Hlast.
  { unfold rsplit in Hsplit.
    destruct (rsplit_last "." fn) as [[x y]|]; [|done].
    by injection Hsplit as -> ->. }
  clear Hrun. unfold minus_ln_stack, File.
  rewrite (bool_decide_eq_false_2 (fn = EmptyString))
    by by eapply rsplit_last_nonempty.
  rewrite bind_assoc, (bind_ok (log _) _ _ tt _ eq_refl).
  unfold bind at 1. simpl fs. rewrite Hfile, Hsplit.
  unfold getitem_seq at 1 2. simpl lookup. unfold bind at 1 2, ret at 1 2.
  rewrite (bool_decide_eq_false_2 (stem +:+ "_ln.hdf5" = EmptyString))
    by apply out_name_nonempty.
  rewrite bind_assoc, (bind_ok (log _) _ _ tt _ eq_refl).
  unfold bind at 1, is_open. simpl existsb.
  assert (stem +:+ "_ln.hdf5" ≠ fn) as Hne.
  { by apply (out_name_ne _ _ ext). }
  rewrite bool_decide_eq_false_2 by done. simpl orb. cbv iota.
  pose proof (created_stable (stem +:+ "_ln.hdf5")) as HP.
  match goal with
  | |- created _ (?c ?s).2 =>
      cut (preserves (created (stem +:+ "_ln.hdf5")) c);
        [intros Hpres; apply Hpres|]
  end; cycle 1.
  - unfold for_range, print. preserves_steps.
  - split; simpl.
    + rewrite lookup_insert_eq. eauto.
    + set_solver.
Qed.

(** C9, as the code has it: [mrc_stack_minus_ln] is an empty stub.  For
    every argument it returns [None] without raising, and it leaves the
    state as it was: no I/O, no conversion. *)
Theorem mrc_stack_minus_ln_noop {A} (stack : A) s :
  mrc_stack_minus_ln (pixel := pixel) stack s = (Ok PyNone, s).
Proof. reflexivity. Qed.

(** C10: for an input path without any dot, [minus_ln_stack] never gets to
    create the destination: the run ends in an exception with the files as
    before and, the empty path apart, which [h5py.File] refuses at once,
    the attempt to open the source as its only event.  When the path names an
    hdf5 container, so that the source is opened, the exception is the
    [IndexError] of [rsplit('.', 1)[1]], and the handle of the source stays
    open. *)
Theorem extensionless_path_raises fn tree dataset s :
  ¬ In "."%char (String.list_ascii_of_string fn) →
  (∃ e s',
     minus_ln_stack (Some fn) tree dataset s = (Raise e, s')
     ∧ fs s' = fs s
     ∧ trace s'
       = trace s
         ++ if bool_decide (fn = EmptyString) then []
            else [EvOpen fn ReadOnly])
  ∧ ∀ root,
      fn ≠ EmptyString →
      fs s !! fn = Some (Container root) →
      minus_ln_stack (Some fn) tree dataset s
      = (Raise IndexError,
         Build_state (fs s) (opened s ++ [(fn, ReadOnly)])
           (trace s ++ [EvOpen fn ReadOnly])).
Proof.
  intros Hdot. apply rsplit_last_None in Hdot.
  assert (fn ≠ EmptyString →
          minus_ln_stack (Some fn) tree dataset s
          = match fs s !! fn with
            | Some (Container _) =>
                (Raise IndexError,
                 Build_state (fs s) (opened s ++ [(fn, ReadOnly)])
                   (trace s ++ [EvOpen fn ReadOnly]))
            | _ =>
                (Raise OSError,
                 Build_state (fs s) (opened s)
                   (trace s ++ [EvOpen fn ReadOnly]))
            end) as Hrun.
  { intros Hfn. unfold minus_ln_stack, File.
    rewrite (bool_decide_eq_false_2 (fn = EmptyString)) by done.
    rewrite bind_assoc, (bind_ok (log _) _ s tt _ eq_refl).
    unfold bind at 1. simpl fs. unfold rsplit. rewrite Hdot.
    by destruct (fs s !! fn) as [[root|]|]. }
  split.
  - case_bool_decide as Hfn.
    + subst fn. exists ValueError, s. by rewrite app_nil_r.
    + rewrite (Hrun Hfn).
      destruct (fs s !! fn) as [[root|]|]; by eexists _, _.
  - intros root Hfn Hfile. by rewrite (Hrun Hfn), Hfile.
Qed.

(** Writing slice [i] of a stack whose slices below [i] are converted. *)
Lemma insert_converted {A B} (conv : A → B) (src : list A) (init : list B)
    i x :
  length init = length src → src !! i = Some x →
  <[i := conv x]> ((conv <$> take i src) ++ drop i init)
  = (conv <$> take (S i) src) ++ drop (S i) init.
Proof.
  intros Hlen Hx.
  assert (i < length src) as Hi by (by eapply lookup_lt_Some).
  destruct (lookup_lt_is_Some_2 init i) as [y Hy]; [lia|].
  rewrite (take_S_r _ _ _ Hx), fmap_app, (drop_S _ _ _ Hy). simpl.
  rewrite insert_app_r_alt; rewrite length_fmap, length_take; [|lia].
  replace (i - i `min` length src) with 0 by lia. simpl.
  by rewrite <- app_assoc.
Qed.

(** ** A run on a valid input *)

Section ValidRun.

Variable files : gmap string (file pixel).
Variables (d : dataset pixel) (n_frames n_rows n_cols : nat).
Variables (fn tree dataset stem ext : string).
Hypothesis Hvalid :
  valid_stack files d n_frames n_rows n_cols fn tree dataset stem ext.

#[local] Abbreviation out_fn := (stem +:+ "_ln.hdf5").
#[local] Abbreviation grp_ln := (ObjRef out_fn [tree]).
#[local] Abbreviation src_ds := (ObjRef fn [tree; dataset]).
#[local] Abbreviation out_ds := (ObjRef out_fn [tree; dataset]).
#[local] Abbreviation out_shape := [n_frames; n_rows; n_cols].

Lemma valid_split : rsplit_last "." fn = Some (stem, ext).
Proof.
  pose proof (vs_split _ _ _ _ _ _ _ _ _ _ Hvalid) as Hs.
  unfold rsplit in Hs. destruct (rsplit_last "." fn) as [[x y]|]; [|done].
  by injection Hs as -> ->.
Qed.

Lemma valid_out_ne : out_fn ≠ fn.
Proof. apply (out_name_ne _ _ ext), valid_split. Qed.

Lemma valid_src_ne : fn ≠ out_fn.
Proof. intros Heq. by apply valid_out_ne. Qed.

Lemma valid_source :
  ∃ ra rm ga gm,
    files !! fn = Some (Container (Group ra rm))
    ∧ rm !! tree = Some (Group ga gm)
    ∧ gm !! dataset = Some (Dataset d).
Proof.
  pose proof (vs_dataset _ _ _ _ _ _ _ _ _ _ Hvalid) as Hd.
  unfold resolve in Hd. simpl in Hd.
  destruct (files !! fn) as [[[?|ra rm]|]|] eqn:Hf; try done. simpl in Hd.
  destruct (rm !! tree) as [[?|ga gm]|] eqn:Ht; try done. simpl in Hd.
  destruct (gm !! dataset) as [x|] eqn:Hx; try done. simpl in Hd.
  injection Hd as ->. by exists ra, rm, ga, gm.
Qed.

(** The frame loop, from index [i] on. *)
Lemma frame_loop attrs meta O j : ∀ i s T,
  i + j = n_frames →
  dest_view files grp_ln s ∅
    (<[dataset := Dataset (Build_dataset out_shape Float32
                             (Some [1; n_rows; n_cols]) attrs
                             (minus_ln_frames (take i (ds_data d))
                              ++ drop i (empty_data out_shape Float32)))]>
       meta) O T →
  ∃ s',
    for_each (seq i j) (λ n_img,
      img ← dataset_getitem src_ds n_img;
      out ← getitem grp_ln dataset;
      dataset_setitem out n_img (minus_log img)) s = (Ok tt, s')
    ∧ dest_view files grp_ln s' ∅
        (<[dataset := Dataset (Build_dataset out_shape Float32
                                 (Some [1; n_rows; n_cols]) attrs
                                 (minus_ln_frames (take (i + j) (ds_data d))
                                  ++ drop (i + j)
                                       (empty_data out_shape Float32)))]>
           meta) O
        (T ++ flat_map (frame_events src_ds out_ds) (seq i j)).
Proof.
  destruct Hvalid as [_ Hd _ _ Hlen Hpix _].
  induction j as [|j IH]; intros i s T Hij Hv.
  - simpl. rewrite Nat.add_0_r, app_nil_r. by eexists.
  - simpl for_each. simpl flat_map.
    destruct (lookup_lt_is_Some_2 (ds_data d) i) as [fr Hfr]; [lia|].
    destruct (dataset_getitem_view _ _ _ _ _ _ _ src_ds d i fr Hv)
      as (s1 & Hrun1 & Hv1); [apply valid_src_ne|done..|].
    rewrite bind_assoc, (bind_ok _ _ _ _ _ Hrun1), bind_assoc.
    rewrite (bind_ok _ _ _ _ _
               (getitem_view _ _ _ _ _ _ _ dataset Hv1
                  ltac:(by rewrite lookup_insert_eq))).
    edestruct dataset_setitem_view
      with (name := dataset) (i := i) (fr := minus_log fr)
      as (s2 & Hrun2 & Hv2).
    { exact Hv1. }
    { apply lookup_insert_eq. }
    { simpl. unfold minus_ln_frames.
      rewrite length_app, length_fmap, length_take, length_drop,
        length_replicate. lia. }
    { simpl. unfold minus_log. rewrite !length_fmap.
      rewrite (Forall_lookup_1 _ _ _ _ Hpix Hfr). lia. }
    rewrite (bind_ok _ _ _ _ _ Hrun2).
    simpl in Hv2. rewrite insert_insert_eq in Hv2.
    unfold minus_ln_frames in Hv2.
    rewrite (insert_converted (λ fr, astype Float32 <$> minus_log fr))
      in Hv2; [|simpl; rewrite length_replicate; lia|done].
    destruct (IH (S i) s2 _ ltac:(lia) Hv2) as (s3 & Hrun3 & Hv3).
    rewrite Hrun3. eexists. split; [done|].
    replace (i + S j) with (S i + j) by lia.
    by rewrite <- !app_assoc in Hv3.
Qed.

(** The whole run: result, destination group, handles and trace. *)
Lemma minus_ln_stack_valid :
  let meta := copied_metadata files (ObjRef fn [tree]) grp_ln ext in
  ∃ s',
    minus_ln_stack (Some fn) tree dataset (init_state files)
    = (Ok PyNone, s')
    ∧ dest_view files grp_ln s' ∅
        (<[dataset := Dataset (converted_stack n_frames n_rows n_cols d)]>
           meta.1) []
        ([EvOpen fn ReadOnly; EvOpen out_fn WriteTruncate;
          EvCreateGroup (ObjRef out_fn []) tree]
         ++ meta.2
         ++ [EvCreateDataset grp_ln dataset;
             EvSetAttr out_ds "Number of Frames"]
         ++ flat_map (frame_events src_ds out_ds) (seq 0 n_frames)
         ++ [EvClose fn; EvClose out_fn;
             EvPrint ("Stack " +:+ fn +:+ " has been converted")]).
Proof.
  intros meta.
  destruct valid_source as (ra & rm & ga & gm & Hfile & Htree & Hdata).
  pose proof valid_split as Hsplit.
  pose proof valid_src_ne as Hne.
  destruct Hvalid as [_ Hd Hshape (Hn & Hr & Hc) Hlen Hpix Hname].
  unfold minus_ln_stack, File.
  rewrite (bool_decide_eq_false_2 (fn = EmptyString))
    by by eapply rsplit_last_nonempty.
  rewrite bind_assoc.
  rewrite (bind_ok (log (EvOpen fn ReadOnly)) _ _ tt _ eq_refl).
  unfold bind at 1. simpl fs. rewrite Hfile.
  unfold rsplit. rewrite Hsplit. unfold getitem_seq at 1 2. simpl lookup.
  unfold bind at 1 2, ret at 1 2.
  rewrite (bool_decide_eq_false_2 (out_fn = EmptyString))
    by apply out_name_nonempty.
  rewrite bind_assoc.
  rewrite (bind_ok (log (EvOpen out_fn WriteTruncate)) _ _ tt _ eq_refl).
  unfold bind at 1, is_open. simpl existsb.
  rewrite bool_decide_eq_false_2 by done. simpl orb. cbv iota.
  cbn [fs opened trace init_state app].
  set (s2 := Build_state (<[out_fn:=Container (Group ∅ ∅)]> files) _ _).
  assert (resolve s2 (ObjRef fn []) = Some (Group ra rm)) as Hroot.
  { unfold resolve. simpl. by rewrite lookup_insert_ne, Hfile. }
  assert (resolve s2 (ObjRef fn [tree]) = Some (Group ga gm)) as Hgrp.
  { rewrite <- Htree. exact (resolve_member _ _ tree _ _ Hroot). }
  assert (resolve s2 src_ds = Some (Dataset d)) as Hds.
  { rewrite <- Hdata. exact (resolve_member _ _ dataset _ _ Hgrp). }
  unfold bind at 1, getitem at 1. rewrite Hroot, Htree.
  change (child (ObjRef fn []) tree) with (ObjRef fn [tree]).
  unfold bind at 1, getitem at 1. rewrite Hgrp, Hdata.
  change (child (ObjRef fn [tree]) dataset) with src_ds.
  unfold bind at 1, shape. rewrite Hds, Hshape.
  unfold getitem_seq at 1 2 3. simpl lookup. unfold bind at 1 2 3, ret at 1 2 3.
  unfold bind at 1, create_group.
  assert (resolve s2 (ObjRef out_fn []) = Some (Group ∅ ∅)) as Hout.
  { unfold resolve. simpl. by rewrite lookup_insert_eq. }
  rewrite Hout, lookup_empty.
  rewrite (bind_ok (log (EvCreateGroup (ObjRef out_fn []) tree)) _ _ tt _
             eq_refl).
  unfold ret at 1.
  change (child (ObjRef out_fn []) tree) with grp_ln.
  rewrite opened_store, trace_store. simpl opened. simpl trace.
  set (s3 := Build_state _ _ _).
  assert (dest_view files grp_ln s3 ∅ ∅
            [(fn, ReadOnly); (out_fn, WriteTruncate)]
            [EvOpen fn ReadOnly; EvOpen out_fn WriteTruncate;
             EvCreateGroup (ObjRef out_fn []) tree]) as Hv3.
  { repeat split.
    - transitivity (resolve (store (ObjRef out_fn [])
                      (Group ∅ (<[tree:=Group ∅ ∅]> ∅)) s2) grp_ln);
        [done|].
      rewrite (resolve_member _ (ObjRef out_fn []) tree ∅
                 (<[tree:=Group ∅ ∅]> ∅)).
      + apply lookup_insert_eq.
      + by eapply resolve_store_grp_eq.
    - intros path Hp. subst s3. simpl fs. rewrite fs_store_ne by done.
      simpl. by rewrite lookup_insert_ne. }
  clearbody s3. clear s2 Hroot Hgrp Hds Hout.
  assert (∃ s4,
    (if bool_decide (ext = "h5") || bool_decide (ext = "hdf5")
     then copy_metadata (ObjRef fn [tree]) grp_ln else ret tt) s3
    = (Ok tt, s4)
    ∧ dest_view files grp_ln s4 ∅ meta.1
        [(fn, ReadOnly); (out_fn, WriteTruncate)]
        ([EvOpen fn ReadOnly; EvOpen out_fn WriteTruncate;
          EvCreateGroup (ObjRef out_fn []) tree] ++ meta.2)
    ∧ meta.1 !! dataset = None) as (s4 & Hrun4 & Hv4 & Hfree).
  { subst meta. unfold copied_metadata.
    destruct (bool_decide (ext = "h5") || bool_decide (ext = "hdf5"))
      eqn:Hext.
    - destruct (copy_metadata_view _ _ _ _ _ _ _ (ObjRef fn [tree]) Hv3 Hne)
        as (s4 & Hrun4 & Hv4).
      exists s4. split_and!; [done..|].
      rewrite metadata_outcome_lookup_ne; [done|].
      apply Hname. apply orb_true_iff in Hext.
      by rewrite !bool_decide_eq_true in Hext.
    - exists s3. by split_and!. }
  rewrite (bind_ok _ _ _ _ _ Hrun4).
  destruct (create_dataset_view _ _ _ _ _ _ _ dataset n_frames n_rows n_cols
              Float32 Hv4 Hfree Hn Hr Hc) as (s5 & Hrun5 & Hv5).
  rewrite (bind_ok _ _ _ _ _ Hrun5).
  rewrite bind_assoc.
  rewrite (bind_ok _ _ _ _ _
             (getitem_view _ _ _ _ _ _ _ dataset Hv5
                ltac:(by rewrite lookup_insert_eq))).
  edestruct attrs_setitem_view
    with (name := dataset) (key := "Number of Frames") (x := n_frames)
    as (s6 & Hrun6 & Hv6); [exact Hv5|apply lookup_insert_eq|].
  rewrite (bind_ok _ _ _ _ _ Hrun6).
  simpl in Hv6. rewrite insert_insert_eq, insert_empty in Hv6.
  destruct (frame_loop _ _ _ n_frames 0 s6 _ eq_refl Hv6)
    as (s7 & Hrun7 & Hv7).
  unfold for_range. rewrite (bind_ok _ _ _ _ _ Hrun7).
  simpl in Hv7.
  rewrite take_ge, drop_ge, app_nil_r in Hv7
    by (rewrite ?length_replicate; lia).
  destruct (close_view _ _ _ _ _ _ _ (ObjRef fn []) Hv7)
    as (s8 & Hrun8 & Hv8).
  rewrite (bind_ok _ _ _ _ _ Hrun8).
  destruct (close_view _ _ _ _ _ _ _ (ObjRef out_fn []) Hv8)
    as (s9 & Hrun9 & Hv9).
  rewrite (bind_ok _ _ _ _ _ Hrun9).
  apply (view_log _ _ (EvPrint ("Stack " +:+ fn +:+ " has been converted")))
    in Hv9.
  unfold print. rewrite (bind_ok (log _) _ s9 tt _ eq_refl).
  eexists. split; [done|].
  rewrite (filter_cons_False _ (fn, ReadOnly)) in Hv9 by naive_solver.
  rewrite (filter_cons_True _ (out_fn, WriteTruncate)) in Hv9
    by (simpl; auto using valid_out_ne).
  rewrite filter_nil in Hv9.
  rewrite (filter_cons_False _ (out_fn, WriteTruncate)) in Hv9
    by naive_solver.
  rewrite filter_nil in Hv9.
  cbn [app ref_file] in Hv9. rewrite <- !app_assoc in Hv9. exact Hv9.
Qed.

Lemma converted_frame i fr :
  ds_data d !! i = Some fr →
  ds_data (converted_stack n_frames n_rows n_cols d) !! i
  = Some (astype Float32 <$> (np_negative <$> (np_log <$> fr))).
Proof.
  intros Hfr. unfold converted_stack, minus_ln_frames. simpl.
  by rewrite list_lookup_fmap, Hfr.
Qed.

(** C1: on a valid input stack of shape [(n_frames, n_rows, n_cols)] the
    run succeeds, the frames are written to the output dataset in the order
    [0 .. n_frames-1], and the output frame at each index is the element-wise
    [-np.log] of the input frame at that index, whatever the pixel values
    (no clamping); a frame of one repeated value [x] gives a frame of the
    repeated value [-np.log(x)], so a frame of ones gives a frame of zeros
    when [-np.log(1.0)] is zero. *)
Theorem minus_ln_stack_frames :
  ∃ s' out,
    minus_ln_stack (Some fn) tree dataset (init_state files)
    = (Ok PyNone, s')
    ∧ frames_written (trace s') = (λ i, (out_ds, i)) <$> seq 0 n_frames
    ∧ resolve s' out_ds = Some (Dataset out)
    ∧ length (ds_data out) = n_frames
    ∧ (∀ i fr, ds_data d !! i = Some fr →
         ds_data out !! i
         = Some (astype Float32 <$> (np_negative <$> (np_log <$> fr))))
    ∧ (∀ i fr one zero,
         ds_data d !! i = Some fr → Forall (λ x, x = one) fr →
         astype Float32 (np_negative (np_log one)) = zero →
         ∃ fr', ds_data out !! i = Some fr'
                ∧ length fr' = length fr ∧ Forall (λ y, y = zero) fr').
Proof.
  destruct minus_ln_stack_valid as (s' & Hrun & Hr & _ & _ & Htr).
  exists s', (converted_stack n_frames n_rows n_cols d).
  split_and!.
  - done.
  - rewrite Htr. unfold frames_written. rewrite !omap_app.
    change (omap _ ?l) with (frames_written l).
    rewrite frames_written_copied, frames_written_loop. simpl.
    by rewrite app_nil_r.
  - rewrite (resolve_member _ _ dataset _ _ Hr : resolve s' out_ds = _).
    apply lookup_insert_eq.
  - simpl. unfold minus_ln_frames. rewrite length_fmap.
    by destruct Hvalid.
  - apply converted_frame.
  - intros i fr one zero Hfr Hone Hzero. eexists. split_and!.
    + by apply converted_frame.
    + by rewrite !length_fmap.
    + rewrite !Forall_fmap. eapply Forall_impl; [exact Hone|].
      simpl. by intros x ->.
Qed.

(** C2: on a valid input stack the output dataset has the shape of the
    input dataset, [(n_frames, n_rows, n_cols)], the chunk shape
    [(1, n_rows, n_cols)], 32-bit float elements whatever the element type
    of the source, and the attribute ["Number of Frames"] equal to
    [n_frames]. *)
Theorem minus_ln_stack_output_dataset :
  ∃ s' out,
    minus_ln_stack (Some fn) tree dataset (init_state files)
    = (Ok PyNone, s')
    ∧ resolve s' out_ds = Some (Dataset out)
    ∧ ds_shape out = ds_shape d
    ∧ ds_shape out = [n_frames; n_rows; n_cols]
    ∧ ds_chunks out = Some [1; n_rows; n_cols]
    ∧ ds_dtype out = Float32
    ∧ ds_attrs out !! "Number of Frames" = Some n_frames.
Proof.
  destruct minus_ln_stack_valid as (s' & Hrun & Hr & _).
  exists s', (converted_stack n_frames n_rows n_cols d).
  split_and!; try done.
  - rewrite (resolve_member _ _ dataset _ _ Hr : resolve s' out_ds = _).
    apply lookup_insert_eq.
  - by destruct Hvalid as [_ _ -> _ _ _ _].
Qed.

(** C5: on a valid input, [copy_metadata] is called exactly when the
    extension is the string [h5] or [hdf5]; the call then comes after the
    creation of the destination group and before the creation of the output
    dataset.  For any other extension the run still succeeds: its trace has
    no metadata event and no diagnostic, and the destination group holds the
    output dataset only. *)
Theorem metadata_copy_gated :
  ∃ s',
    minus_ln_stack (Some fn) tree dataset (init_state files)
    = (Ok PyNone, s')
    ∧ (EvCall "copy_metadata" ∈ trace s' ↔ ext = "h5" ∨ ext = "hdf5")
    ∧ (ext = "h5" ∨ ext = "hdf5" →
       ∃ post,
         trace s'
         = [EvOpen fn ReadOnly; EvOpen out_fn WriteTruncate;
            EvCreateGroup (ObjRef out_fn []) tree]
           ++ EvCall "copy_metadata" :: post
         ∧ EvCreateDataset grp_ln dataset ∈ post)
    ∧ (¬ (ext = "h5" ∨ ext = "hdf5") →
       trace s'
       = [EvOpen fn ReadOnly; EvOpen out_fn WriteTruncate;
          EvCreateGroup (ObjRef out_fn []) tree;
          EvCreateDataset grp_ln dataset;
          EvSetAttr out_ds "Number of Frames"]
         ++ flat_map (frame_events src_ds out_ds) (seq 0 n_frames)
         ++ [EvClose fn; EvClose out_fn;
             EvPrint ("Stack " +:+ fn +:+ " has been converted")]
       ∧ resolve s' grp_ln
         = Some (Group ∅ {[dataset :=
                   Dataset (converted_stack n_frames n_rows n_cols d)]})).
Proof.
  destruct minus_ln_stack_valid as (s' & Hrun & Hr & _ & _ & Htr).
  exists s'. split; [done|].
  unfold copied_metadata in Hr, Htr.
  destruct (bool_decide (ext = "h5") || bool_decide (ext = "hdf5")) eqn:Hext.
  - apply ext_gate in Hext. split_and!.
    + split; [done|]. intros _. rewrite Htr. simpl. set_solver.
    + intros _. eexists. split; [exact Htr|].
      rewrite !elem_of_app. right. left. set_solver.
    + done.
  - assert (¬ (ext = "h5" ∨ ext = "hdf5")) as Hno.
    { rewrite <- ext_gate. by rewrite Hext. }
    simpl in Hr, Htr. rewrite insert_empty in Hr. split_and!.
    + split; [|done]. rewrite Htr. intros Hin. exfalso.
      rewrite !elem_of_cons, elem_of_app, !elem_of_cons in Hin.
      destruct Hin as [?|[?|[?|[?|[?|[Hin|Hin]]]]]]; try done.
      * by apply no_call_in_frames in Hin.
      * set_solver.
    + done.
    + done.
Qed.

(** C7: [copy_metadata] returns normally from every state and for every
    pair of groups.  In a run on a valid input with extension [h5] or
    [hdf5], the destination holds [rotation_angle], respectively [energy],
    exactly when that field can be read from the source, with the value
    read, whatever happens to the other fields; a field that cannot be read
    (absent, or not a dataset) leaves a diagnostic in the trace and the run
    still succeeds.  In particular without [energy] in the source the output
    has no [energy], [rotation_angle] is copied when readable, and both
    pixel sizes are copied when both are readable. *)
Theorem copy_metadata_best_effort :
  ext = "h5" ∨ ext = "hdf5" →
  (∀ src dst s, ∃ s', copy_metadata src dst s = (Ok tt, s'))
  ∧ ∃ s' dm,
      minus_ln_stack (Some fn) tree dataset (init_state files)
      = (Ok PyNone, s')
      ∧ resolve s' grp_ln = Some (Group ∅ dm)
      ∧ dm !! "rotation_angle"
        = (λ arr, Dataset (dataset_of arr))
            <$> field_value (init_state files) (ObjRef fn [tree])
                  "rotation_angle"
      ∧ dm !! "energy"
        = (λ arr, Dataset (dataset_of arr))
            <$> field_value (init_state files) (ObjRef fn [tree]) "energy"
      ∧ (field_value (init_state files) (ObjRef fn [tree]) "rotation_angle"
         = None → EvPrint angles_msg ∈ trace s')
      ∧ (field_value (init_state files) (ObjRef fn [tree]) "energy" = None →
         dm !! "energy" = None ∧ EvPrint energies_msg ∈ trace s')
      ∧ (∀ ax ay,
           field_value (init_state files) (ObjRef fn [tree]) "x_pixel_size"
           = Some ax →
           field_value (init_state files) (ObjRef fn [tree]) "y_pixel_size"
           = Some ay →
           dm !! "x_pixel_size" = Some (Dataset (dataset_of ax))
           ∧ dm !! "y_pixel_size" = Some (Dataset (dataset_of ay))).
Proof.
  intros Hext. split.
  { intros src dst s. unfold copy_metadata.
    rewrite (bind_ok (log _) _ s tt _ eq_refl).
    edestruct try_except_total as [s1 H1];
      [| |rewrite (bind_ok _ _ _ _ _ H1)];
      [done|intros ?; by eexists|].
    edestruct try_except_total as [s2 H2];
      [| |rewrite (bind_ok _ _ _ _ _ H2)];
      [done|intros ?; by eexists|].
    apply try_except_total; [apply is_Exception_all|].
    intros ?. by eexists. }
  destruct minus_ln_stack_valid as (s' & Hrun & Hr & _ & _ & Htr).
  pose proof (vs_name _ _ _ _ _ _ _ _ _ _ Hvalid Hext) as Hname.
  unfold metadata_fields in Hname. rewrite !not_elem_of_cons in Hname.
  destruct Hname as (? & ? & ? & ? & _).
  eexists s', _. split; [done|]. split; [exact Hr|].
  unfold copied_metadata in *.
  rewrite (proj2 (ext_gate ext) Hext) in *.
  unfold metadata_outcome in *. simpl in *.
  split_and!.
  - rewrite lookup_insert_ne, copy_pair_lookup_ne, copy_one_lookup_ne by done.
    by apply copy_one_lookup_eq.
  - rewrite lookup_insert_ne, copy_pair_lookup_ne by done.
    apply copy_one_lookup_eq. by rewrite copy_one_lookup_ne.
  - intros Hnone. rewrite Htr, Hnone. simpl. set_solver.
  - intros Hnone. split.
    + rewrite lookup_insert_ne, copy_pair_lookup_ne by done.
      rewrite Hnone. apply copy_one_lookup_eq.
      by rewrite copy_one_lookup_ne.
    + rewrite Htr, Hnone. simpl. set_solver.
  - intros ax ay Hx Hy. rewrite Hx, Hy.
    rewrite copy_pair_both by (by rewrite !copy_one_lookup_ne).
    rewrite !lookup_insert_ne by done.
    by rewrite lookup_insert_eq, lookup_insert_ne, lookup_insert_eq.
Qed.

(** ** More on the run on a valid input *)

Lemma frame_accesses_copied (fls : gmap string (file pixel)) src dst e :
  frame_accesses (copied_metadata fls src dst e).2 = [].
Proof.
  unfold copied_metadata, metadata_outcome, copy_one, copy_pair.
  destruct (_ || _); [|done]. simpl.
  repeat (case_match; simpl); done.
Qed.

Lemma frame_accesses_loop src dst l :
  frame_accesses (flat_map (frame_events src dst) l)
  = flat_map (frame_events src dst) l.
Proof. induction l as [|i l IH]; simpl; [done|]. by do 2 f_equal. Qed.

(** What [copy_metadata] leaves in a fresh group comes from the readable
    fields of the source and from nowhere else. *)
Lemma metadata_outcome_members dst (f : string → option (ndarray pixel)) k x :
  (metadata_outcome dst (f "rotation_angle") (f "energy") (f "x_pixel_size")
     (f "y_pixel_size") ∅).1 !! k = Some x →
  k ∈ metadata_fields ∧ ∃ arr, f k = Some arr ∧ x = Dataset (dataset_of arr).
Proof.
  unfold metadata_outcome, copy_one, copy_pair, metadata_fields. simpl.
  destruct (f "rotation_angle") as [vr|] eqn:Hr,
    (f "energy") as [ve|] eqn:He,
    (f "x_pixel_size") as [vx|] eqn:Hx,
    (f "y_pixel_size") as [vy|] eqn:Hy;
    simpl; rewrite ?lookup_empty; simpl;
    rewrite ?lookup_insert_ne, ?lookup_empty by done; simpl;
    rewrite ?lookup_insert_ne, ?lookup_empty by done; simpl;
    rewrite ?lookup_insert_Some, ?lookup_empty;
    intros Hk; set_unfold; naive_solver.
Qed.




End ValidRun.

(** ** Runs that fail *)

Lemma rsplit_two fn stem ext :
  rsplit fn "." = [stem; ext] → rsplit_last "." fn = Some (stem, ext).
Proof.
  unfold rsplit. destruct (rsplit_last "." fn) as [[x y]|]; [|done].
  by intros [= -> ->].
Qed.

Lemma source_members (files : gmap string (file pixel)) fn tree dataset d :
  resolve (init_state files) (ObjRef fn [tree; dataset]) = Some (Dataset d) →
  ∃ ra rm ga gm,
    files !! fn = Some (Container (Group ra rm))
    ∧ rm !! tree = Some (Group ga gm)
    ∧ gm !! dataset = Some (Dataset d).
Proof.
  intros Hds. unfold resolve in Hds. simpl in Hds.
  destruct (files !! fn) as [[[?|ra rm]|]|] eqn:Hf; try done.
  simpl in Hds.
  destruct (rm !! tree) as [[?|ga gm]|] eqn:Ht; try done. simpl in Hds.
  destruct (gm !! dataset) as [x|] eqn:Hx; try done. simpl in Hds.
  injection Hds as ->. by exists ra, rm, ga, gm.
Qed.

(** Runs [minus_ln_stack] from [init_state] up to the point where both
    containers are open. *)
Ltac open_containers Hlast Hfile :=
  unfold minus_ln_stack, File;
  rewrite (bool_decide_eq_false_2 (_ = EmptyString))
    by (by eapply rsplit_last_nonempty);
  rewrite bind_assoc, (bind_ok (log _) _ _ tt _ eq_refl);
  unfold bind at 1; simpl fs; rewrite Hfile;
  unfold rsplit; rewrite Hlast; unfold getitem_seq at 1 2; simpl lookup;
  unfold bind at 1 2, ret at 1 2;
  rewrite (bool_decide_eq_false_2 (_ +:+ "_ln.hdf5" = EmptyString))
    by apply out_name_nonempty;
  rewrite bind_assoc, (bind_ok (log _) _ _ tt _ eq_refl);
  unfold bind at 1, is_open; simpl existsb;
  rewrite (bool_decide_eq_false_2 (_ = _ +:+ "_ln.hdf5"))
    by (intros Heq; by eapply out_name_ne);
  simpl orb; cbv iota; cbn [fs opened trace init_state app].





(** ** Runs one after the other *)

Lemma resolve_init_state s r : resolve (init_state (fs s)) r = resolve s r.
Proof. done. Qed.

Lemma field_value_agree s s' src name :
  fs s' !! ref_file src = fs s !! ref_file src →
  field_value s' src name = field_value s src name.
Proof.
  intros Hfs. unfold field_value.
  by rewrite (resolve_agree s s' (child src name)).
Qed.

Lemma copied_metadata_agree (files files' : gmap string (file pixel))
    src dst ext :
  files' !! ref_file src = files !! ref_file src →
  copied_metadata files' src dst ext = copied_metadata files src dst ext.
Proof.
  intros Hfs. unfold copied_metadata.
  by rewrite !(field_value_agree (init_state files) (init_state files')).
Qed.



(** ** What no run does *)

Section Within.

Variables (E : event → Prop) (W : string → Prop)
  (R : state pixel → state pixel → Prop).
Hypothesis HR : step_relation E W R.

Lemma within_ret {A} (x : A) : within R (ret x).
Proof. intros s. apply HR. Qed.

Lemma within_raise {A} e : within R (raise (A := A) e).
Proof. intros s. apply HR. Qed.

Lemma within_log e : E e → within R (log e).
Proof. intros He s. by apply HR. Qed.

Lemma within_bind {A B} (c : M pixel A) (f : A → M pixel B) :
  within R c → (∀ x, within R (f x)) → within R (bind c f).
Proof.
  intros Hc Hf s. unfold bind. specialize (Hc s).
  destruct (c s) as [[x|e] s1]; [|done].
  eapply (rel_trans _ _ _ HR); [exact Hc|apply Hf].
Qed.

Lemma within_bind_returns {A B} (c : M pixel A) (f : A → M pixel B) x0 :
  within R c → returns c x0 → within R (f x0) → within R (bind c f).
Proof.
  intros Hc Hr Hf s. unfold bind. specialize (Hc s).
  destruct (c s) as [[x|e] s1] eqn:Hcs; [|done].
  rewrite (Hr _ _ _ Hcs).
  eapply (rel_trans _ _ _ HR); [exact Hc|apply Hf].
Qed.

Lemma on_raise_bind {A B} (c : M pixel A) (f : A → M pixel B) :
  within R c → (∀ x, within_on_raise R (f x)) →
  within_on_raise R (bind c f).
Proof.
  intros Hc Hf s e s'. unfold bind. specialize (Hc s).
  destruct (c s) as [[x|e1] s1]; simpl in Hc.
  - intros Hfx. eapply (rel_trans _ _ _ HR); [exact Hc|by eapply Hf].
  - by intros [= _ <-].
Qed.

Lemma within_try_except body catches handler :
  within R body → within R handler →
  within R (try_except body catches handler).
Proof.
  intros Hb Hh s. unfold try_except. specialize (Hb s).
  destruct (body s) as [[x|e] s1]; [done|].
  destruct (catches e); [|done].
  eapply (rel_trans _ _ _ HR); [exact Hb|apply Hh].
Qed.

Lemma within_for_each {A} (l : list A) body :
  (∀ x, within R (body x)) → within R (for_each l body).
Proof.
  intros Hb. induction l as [|x l IH]; simpl.
  - apply within_ret.
  - by apply within_bind.
Qed.

Lemma within_getitem_seq {A} (l : list A) i : within R (getitem_seq l i).
Proof. intros s. unfold getitem_seq. destruct (l !! i); apply HR. Qed.

Lemma within_getitem obj name : within R (getitem obj name).
Proof.
  intros s. unfold getitem.
  destruct (resolve s obj) as [[?|? m]|]; try apply HR.
  destruct (m !! name); apply HR.
Qed.

Lemma within_shape obj : within R (shape obj).
Proof.
  intros s. unfold shape. destruct (resolve s obj) as [[?|? ?]|]; apply HR.
Qed.

Lemma within_value obj : within R (value obj).
Proof.
  intros s. unfold value. destruct (resolve s obj) as [[?|? ?]|]; apply HR.
Qed.

Lemma within_stored r v e s :
  W (ref_file r) → E e →
  R s (Build_state (fs (store r v s)) (opened (store r v s))
         (trace (store r v s) ++ [e])).
Proof.
  intros Hw He. eapply (rel_trans _ _ _ HR).
  - by apply (rel_store _ _ _ HR r v).
  - by apply (rel_log _ _ _ HR).
Qed.

Lemma within_create_group grp name :
  W (ref_file grp) → E (EvCreateGroup grp name) →
  within R (create_group grp name).
Proof.
  intros Hw He s. unfold create_group.
  destruct (resolve s grp) as [[?|? m]|]; try apply HR.
  destruct (m !! name); [apply HR|]. by apply within_stored.
Qed.

Lemma within_add_dataset grp name d :
  W (ref_file grp) → E (EvCreateDataset grp name) →
  within R (add_dataset grp name d).
Proof.
  intros Hw He s. unfold add_dataset.
  destruct (resolve s grp) as [[?|? m]|]; try apply HR.
  destruct (m !! name); [apply HR|]. by apply within_stored.
Qed.

Lemma within_create_dataset grp name shp chunks t :
  W (ref_file grp) → E (EvCreateDataset grp name) →
  within R (create_dataset grp name shp chunks t).
Proof.
  intros Hw He. unfold create_dataset. destruct (chunks_ok shp chunks).
  - by apply within_add_dataset.
  - apply within_raise.
Qed.

Lemma within_attrs_setitem obj key x :
  W (ref_file obj) → E (EvSetAttr obj key) →
  within R (attrs_setitem obj key x).
Proof.
  intros Hw He s. unfold attrs_setitem.
  destruct (resolve s obj) as [[?|? ?]|]; try apply HR;
    by apply within_stored.
Qed.

Lemma within_dataset_getitem ds i :
  E (EvReadFrame ds i) → within R (dataset_getitem ds i).
Proof.
  intros He s. unfold dataset_getitem.
  destruct (resolve s ds) as [[d|? ?]|]; try apply HR.
  destruct (ds_data d !! i); [|apply HR]. by apply (rel_log _ _ _ HR).
Qed.

Lemma within_dataset_setitem ds i fr :
  W (ref_file ds) → E (EvWriteFrame ds i) →
  within R (dataset_setitem ds i fr).
Proof.
  intros Hw He s. unfold dataset_setitem.
  destruct (resolve s ds) as [[d|? ?]|]; try apply HR.
  repeat case_bool_decide; try apply HR. by apply within_stored.
Qed.

Lemma within_File path md :
  E (EvOpen path md) → (md = WriteTruncate → W path) →
  within R (File path md).
Proof.
  intros He Hw. unfold File. case_bool_decide; [apply within_raise|].
  apply within_bind; [by apply within_log|]. intros _ s.
  destruct md.
  - destruct (fs s !! path) as [[?|]|]; cbn [snd]; try apply HR.
  - destruct (is_open path s); cbn [snd]; [apply HR|].
    eapply (rel_trans _ _ _ HR).
    + by apply (rel_create _ _ _ HR path), Hw.
    + exact (rel_open _ _ _ HR (path, WriteTruncate)
               (Build_state (<[path := Container (Group ∅ ∅)]> (fs s))
                  (opened s) (trace s))).
Qed.

Lemma within_copy_metadata src dst :
  W (ref_file dst) → E (EvCall "copy_metadata") →
  (∀ name, E (EvCreateDataset dst name)) →
  E (EvPrint angles_msg) → E (EvPrint energies_msg) →
  E (EvPrint pixel_size_msg) →
  within R (copy_metadata src dst).
Proof.
  intros Hw Hcall Hcreate Ha He Hp.
  unfold copy_metadata, create_dataset_data, print.
  repeat first
    [ apply within_try_except
    | by apply within_log
    | apply within_ret
    | apply within_getitem
    | apply within_value
    | by apply within_add_dataset
    | apply within_bind; [|intros ?] ].
Qed.

End Within.

Lemma returns_File path md :
  returns (File (pixel := pixel) path md) (ObjRef path []).
Proof.
  intros s y s' Hrun. unfold File in Hrun.
  case_bool_decide; [done|].
  apply bind_Ok_inv in Hrun as (? & s1 & _ & Hrun).
  destruct md; simpl in Hrun; repeat case_match; by simplify_eq.
Qed.

Lemma returns_getitem obj name :
  returns (getitem (pixel := pixel) obj name) (child obj name).
Proof.
  intros s y s' Hrun. unfold getitem in Hrun.
  repeat case_match; by simplify_eq.
Qed.

Lemma returns_create_group grp name :
  returns (create_group (pixel := pixel) grp name) (child grp name).
Proof.
  intros s y s' Hrun. unfold create_group in Hrun.
  repeat case_match; try done. by injection Hrun as <- _.
Qed.

Lemma returns_getitem_seq {A} (l : list A) i x :
  l !! i = Some x → returns (getitem_seq (pixel := pixel) l i) x.
Proof.
  intros Hx s y s' Hrun. unfold getitem_seq in Hrun. rewrite Hx in Hrun.
  by injection Hrun as <- _.
Qed.

(** Goes through a computation made of the operations above; what is left
    are the conditions on the events logged and on the files written to. *)
Ltac within_steps HR :=
  repeat first
    [ apply (within_ret _ _ _ HR)
    | apply (within_log _ _ _ HR)
    | apply (within_for_each _ _ _ HR); intros ?
    | apply (within_getitem_seq _ _ _ HR)
    | apply (within_getitem _ _ _ HR)
    | apply (within_shape _ _ _ HR)
    | apply (within_File _ _ _ HR)
    | apply (within_create_group _ _ _ HR)
    | apply (within_copy_metadata _ _ _ HR)
    | apply (within_create_dataset _ _ _ HR)
    | apply (within_attrs_setitem _ _ _ HR)
    | apply (within_dataset_getitem _ _ _ HR)
    | apply (within_dataset_setitem _ _ _ HR)
    | destruct (_ || _)
    | eapply (within_bind_returns _ _ _ HR);
        [ | solve [ apply returns_File | apply returns_getitem
                  | apply returns_create_group
                  | by apply returns_getitem_seq ] | ]
    | apply (within_bind _ _ _ HR); [|intros ?] ].

Lemma extends_steps fn :
  step_relation (unfinished fn) (λ _, True)
    (extends (pixel := pixel) (unfinished fn)).
Proof.
  split.
  - intros s. split; [exists []|exists []]; by rewrite app_nil_r.
  - intros s1 s2 s3 [[h1 Ho1] (e1 & Ht1 & He1)] [[h2 Ho2] (e2 & Ht2 & He2)].
    split.
    + exists (h1 ++ h2). by rewrite Ho2, Ho1, app_assoc.
    + exists (e1 ++ e2). split; [by rewrite Ht2, Ht1, app_assoc|].
      by apply Forall_app.
  - intros e s He. split; [exists []; by rewrite app_nil_r|].
    exists [e]. split; [done|]. by apply Forall_singleton.
  - intros r v s _. unfold extends. rewrite opened_store, trace_store.
    split; [exists []|exists []]; by rewrite app_nil_r.
  - intros h s. split; [by exists [h]|]. exists []. by rewrite app_nil_r.
  - intros path s _. split; [exists []|exists []]; by rewrite app_nil_r.
Qed.

Lemma same_files_steps out :
  step_relation (λ _, True) (λ path, path = out)
    (same_files_but (pixel := pixel) out).
Proof.
  split; try done.
  - intros s1 s2 s3 H12 H23 other Hne. by rewrite H23, H12.
  - intros r v s Hr other Hne. apply fs_store_ne. by rewrite Hr.
  - intros path s -> other Hne. simpl. by rewrite lookup_insert_ne.
Qed.

Lemma diagnostic_unfinished fn msg :
  unfinished fn (EvPrint (newline +:+ msg)).
Proof. unfold unfinished, converted_msg, newline. simpl. by intros [=]. Qed.

(** Once the frames are written nothing can fail: closing the handles and
    printing the notice raise nothing. *)
Lemma closing_never_raises (R : state pixel → state pixel → Prop)
    (a b : objref) msg :
  within_on_raise R (close a ;; close b ;; print msg ;; ret PyNone).
Proof. by intros s e s' Hrun. Qed.



(** ** The command line: [main] *)

Lemma blind_ret {A} (x : A) : trace_blind (ret (pixel := pixel) x).
Proof. by intros T s. Qed.

Lemma blind_raise {A} e : trace_blind (raise (pixel := pixel) (A := A) e).
Proof. by intros T s. Qed.

Lemma blind_log e : trace_blind (log (pixel := pixel) e).
Proof.
  intros T s. unfold log, logged_before. simpl. by rewrite app_assoc.
Qed.

Lemma blind_bind {A B} (c : M pixel A) (f : A → M pixel B) :
  trace_blind c → (∀ x, trace_blind (f x)) → trace_blind (bind c f).
Proof.
  intros Hc Hf T s. unfold bind. rewrite Hc.
  destruct (c s) as [[x|e] s1]; simpl; [apply Hf|done].
Qed.

Lemma blind_try_except (body : M pixel unit) catches handler :
  trace_blind body → trace_blind handler →
  trace_blind (try_except body catches handler).
Proof.
  intros Hb Hh T s. unfold try_except. rewrite Hb.
  destruct (body s) as [[x|e] s1]; simpl; [done|].
  destruct (catches e); [apply Hh|done].
Qed.

Lemma blind_for_each {A} (l : list A) (body : A → M pixel unit) :
  (∀ x, trace_blind (body x)) → trace_blind (for_each l body).
Proof.
  intros Hb. induction l as [|x l IH]; simpl.
  - apply blind_ret.
  - by apply blind_bind.
Qed.

Lemma store_logged T r v s :
  store r v (logged_before T s) = logged_before T (store r v s).
Proof.
  unfold store, logged_before. simpl.
  by destruct (fs s !! ref_file r) as [[?|]|].
Qed.

Lemma blind_stored T r v e (x : objref) s :
  (log e ;; ret x) (store r v (logged_before T s))
  = (((log e ;; ret x) (store r v s)).1,
     logged_before T ((log e ;; ret x) (store r v s)).2).
Proof.
  rewrite store_logged. apply (blind_bind (log e) (λ _, ret x)).
  - apply blind_log.
  - intros _. apply blind_ret.
Qed.

Lemma blind_getitem_seq {A} (l : list A) i :
  trace_blind (getitem_seq (pixel := pixel) l i).
Proof. intros T s. unfold getitem_seq. by destruct (l !! i). Qed.

Lemma blind_getitem obj name : trace_blind (getitem (pixel := pixel) obj name).
Proof.
  intros T s. unfold getitem.
  change (resolve (logged_before T s) obj) with (resolve s obj).
  destruct (resolve s obj) as [[?|? m]|]; try done. by destruct (m !! name).
Qed.

Lemma blind_shape obj : trace_blind (shape (pixel := pixel) obj).
Proof.
  intros T s. unfold shape.
  change (resolve (logged_before T s) obj) with (resolve s obj).
  by destruct (resolve s obj) as [[?|? ?]|].
Qed.

Lemma blind_value obj : trace_blind (value (pixel := pixel) obj).
Proof.
  intros T s. unfold value.
  change (resolve (logged_before T s) obj) with (resolve s obj).
  by destruct (resolve s obj) as [[?|? ?]|].
Qed.

Lemma blind_create_group grp name :
  trace_blind (create_group (pixel := pixel) grp name).
Proof.
  intros T s. unfold create_group.
  change (resolve (logged_before T s) grp) with (resolve s grp).
  destruct (resolve s grp) as [[?|? m]|]; try done.
  destruct (m !! name); [done|]. apply blind_stored.
Qed.

Lemma blind_add_dataset grp name d :
  trace_blind (add_dataset grp name d).
Proof.
  intros T s. unfold add_dataset.
  change (resolve (logged_before T s) grp) with (resolve s grp).
  destruct (resolve s grp) as [[?|? m]|]; try done.
  destruct (m !! name); [done|]. apply blind_stored.
Qed.

Lemma blind_create_dataset grp name shp chunks t :
  trace_blind (create_dataset (pixel := pixel) grp name shp chunks t).
Proof.
  unfold create_dataset. destruct (chunks_ok shp chunks).
  - apply blind_add_dataset.
  - apply blind_raise.
Qed.

Lemma blind_attrs_setitem obj key x :
  trace_blind (attrs_setitem (pixel := pixel) obj key x).
Proof.
  intros T s. unfold attrs_setitem.
  change (resolve (logged_before T s) obj) with (resolve s obj).
  destruct (resolve s obj) as [[?|? ?]|]; try done;
    rewrite store_logged; apply blind_log.
Qed.

Lemma blind_dataset_getitem ds i :
  trace_blind (dataset_getitem (pixel := pixel) ds i).
Proof.
  intros T s. unfold dataset_getitem.
  change (resolve (logged_before T s) ds) with (resolve s ds).
  destruct (resolve s ds) as [[d|? ?]|]; try done.
  destruct (ds_data d !! i) as [fr|]; [|done].
  apply (blind_bind (log _) (λ _, ret fr)).
  - apply blind_log.
  - intros _. apply blind_ret.
Qed.

Lemma blind_dataset_setitem ds i fr :
  trace_blind (dataset_setitem ds i fr).
Proof.
  intros T s. unfold dataset_setitem.
  change (resolve (logged_before T s) ds) with (resolve s ds).
  destruct (resolve s ds) as [[d|? ?]|]; try done.
  repeat case_bool_decide; try done. rewrite store_logged. apply blind_log.
Qed.

Lemma blind_File path md : trace_blind (File (pixel := pixel) path md).
Proof.
  unfold File. case_bool_decide; [apply blind_raise|].
  apply blind_bind; [apply blind_log|]. intros _ T s.
  destruct md.
  - change (fs (logged_before T s)) with (fs s).
    by destruct (fs s !! path) as [[?|]|].
  - change (is_open path (logged_before T s)) with (is_open path s).
    by destruct (is_open path s).
Qed.

Lemma blind_close f : trace_blind (close (pixel := pixel) f).
Proof.
  unfold close. apply blind_bind; [by intros T s|]. intros _.
  apply blind_log.
Qed.

Lemma blind_copy_metadata src dst :
  trace_blind (copy_metadata (pixel := pixel) src dst).
Proof.
  unfold copy_metadata, create_dataset_data, print.
  repeat first
    [ apply blind_try_except
    | apply blind_log
    | apply blind_ret
    | apply blind_getitem
    | apply blind_value
    | apply blind_add_dataset
    | apply blind_bind; [|intros ?] ].
Qed.

Lemma blind_minus_ln_stack input tree dataset :
  trace_blind (minus_ln_stack (pixel := pixel) input tree dataset).
Proof.
  destruct input as [fn|]; [|apply blind_raise].
  unfold minus_ln_stack, for_range, print.
  repeat first
    [ apply blind_ret
    | apply blind_log
    | apply blind_for_each; intros ?
    | apply blind_getitem_seq
    | apply blind_getitem
    | apply blind_shape
    | apply blind_File
    | apply blind_create_group
    | apply blind_copy_metadata
    | apply blind_create_dataset
    | apply blind_attrs_setitem
    | apply blind_dataset_getitem
    | apply blind_dataset_setitem
    | apply blind_close
    | destruct (_ || _)
    | apply blind_bind; [|intros ?] ].
Qed.

(** On a regular file [main] prints its notice and then does what
    [minus_ln_stack] does with the default names. *)
Lemma main_on_file isdir (files : gmap string (file pixel)) input :
  is_Some (files !! input) →
  main isdir input (init_state files)
  = ((minus_ln_stack (Some input) "TomoNormalized" "TomoNormalized"
        (init_state files)).1,
     logged_before [EvPrint "Applying minus log to the given stack"]
       (minus_ln_stack (Some input) "TomoNormalized" "TomoNormalized"
          (init_state files)).2).
Proof.
  intros Hfile. unfold main, isfile. unfold bind at 1. simpl fs.
  rewrite bool_decide_eq_true_2 by done.
  unfold print. rewrite (bind_ok (log _) _ _ tt _ eq_refl).
  change (Build_state _ _ _)
    with (logged_before
            [EvPrint "Applying minus log to the given stack"]
            (init_state files)).
  unfold bind at 1. rewrite blind_minus_ln_stack.
  destruct (minus_ln_stack _ _ _ _) as [[y|e] s1] eqn:Hrun; [|done].
  by rewrite (minus_ln_stack_returns _ _ _ _ _ _ Hrun).
Qed.




End Properties.

(** * The properties on the sample file system *)

Lemma fixture_valid :
  valid_stack Fixture.files Fixture.stack 2 1 2
    "/data/run01.hdf5" "TomoNormalized" "TomoNormalized" "/data/run01" "hdf5".
Proof.
  split.
  - reflexivity.
  - vm_compute. reflexivity.
  - reflexivity.
  - lia.
  - reflexivity.
  - repeat constructor.
  - intros _. unfold metadata_fields. rewrite !not_elem_of_cons.
    split_and!; [discriminate..|]. apply not_elem_of_nil.
Defined.

#[local] Abbreviation run01 := "/data/run01.hdf5".
#[local] Abbreviation run01_ln := "/data/run01_ln.hdf5".
#[local] Abbreviation Tomo := "TomoNormalized".

Lemma minus_ln_stack_frames_witness :
  valid_stack Fixture.files Fixture.stack 2 1 2 run01 Tomo Tomo
    "/data/run01" "hdf5"
  ∧ ∃ s' out,
      minus_ln_stack (Some run01) Tomo Tomo (init_state Fixture.files)
      = (Ok PyNone, s')
      ∧ frames_written (trace s')
        = (λ i, (ObjRef run01_ln [Tomo; Tomo], i)) <$> seq 0 2
      ∧ resolve s' (ObjRef run01_ln [Tomo; Tomo]) = Some (Dataset out)
      ∧ length (ds_data out) = 2
      ∧ (∀ i fr, ds_data Fixture.stack !! i = Some fr →
           ds_data out !! i
           = Some (astype Float32 <$> (np_negative <$> (np_log <$> fr))))
      ∧ (∀ i fr one zero,
           ds_data Fixture.stack !! i = Some fr → Forall (λ x, x = one) fr →
           astype Float32 (np_negative (np_log one)) = zero →
           ∃ fr', ds_data out !! i = Some fr'
                  ∧ length fr' = length fr ∧ Forall (λ y, y = zero) fr').
Proof.
  split; [exact fixture_valid|].
  exact (minus_ln_stack_frames Fixture.files Fixture.stack 2 1 2 run01 Tomo
           Tomo "/data/run01" "hdf5" fixture_valid).
Defined.

Lemma minus_ln_stack_output_dataset_witness :
  valid_stack Fixture.files Fixture.stack 2 1 2 run01 Tomo Tomo
    "/data/run01" "hdf5"
  ∧ ∃ s' out,
      minus_ln_stack (Some run01) Tomo Tomo (init_state Fixture.files)
      = (Ok PyNone, s')
      ∧ resolve s' (ObjRef run01_ln [Tomo; Tomo]) = Some (Dataset out)
      ∧ ds_shape out = ds_shape Fixture.stack
      ∧ ds_shape out = [2; 1; 2]
      ∧ ds_chunks out = Some [1; 1; 2]
      ∧ ds_dtype out = Float32
      ∧ ds_attrs out !! "Number of Frames" = Some 2.
Proof.
  split; [exact fixture_valid|].
  exact (minus_ln_stack_output_dataset Fixture.files Fixture.stack 2 1 2
           run01 Tomo Tomo "/data/run01" "hdf5" fixture_valid).
Defined.

Lemma metadata_copy_gated_witness :
  valid_stack Fixture.files Fixture.stack 2 1 2 run01 Tomo Tomo
    "/data/run01" "hdf5"
  ∧ ∃ s',
      minus_ln_stack (Some run01) Tomo Tomo (init_state Fixture.files)
      = (Ok PyNone, s')
      ∧ (EvCall "copy_metadata" ∈ trace s' ↔ "hdf5" = "h5" ∨ "hdf5" = "hdf5")
      ∧ ("hdf5" = "h5" ∨ "hdf5" = "hdf5" →
         ∃ post,
           trace s'
           = [EvOpen run01 ReadOnly; EvOpen run01_ln WriteTruncate;
              EvCreateGroup (ObjRef run01_ln []) Tomo]
             ++ EvCall "copy_metadata" :: post
           ∧ EvCreateDataset (ObjRef run01_ln [Tomo]) Tomo ∈ post)
      ∧ (¬ ("hdf5" = "h5" ∨ "hdf5" = "hdf5") →
         trace s'
         = [EvOpen run01 ReadOnly; EvOpen run01_ln WriteTruncate;
            EvCreateGroup (ObjRef run01_ln []) Tomo;
            EvCreateDataset (ObjRef run01_ln [Tomo]) Tomo;
            EvSetAttr (ObjRef run01_ln [Tomo; Tomo]) "Number of Frames"]
           ++ flat_map (frame_events (ObjRef run01 [Tomo; Tomo])
                          (ObjRef run01_ln [Tomo; Tomo])) (seq 0 2)
           ++ [EvClose run01; EvClose run01_ln;
               EvPrint ("Stack " +:+ run01 +:+ " has been converted")]
         ∧ resolve s' (ObjRef run01_ln [Tomo])
           = Some (Group ∅ {[Tomo :=
                     Dataset (converted_stack 2 1 2 Fixture.stack)]})).
Proof.
  split; [exact fixture_valid|].
  exact (metadata_copy_gated Fixture.files Fixture.stack 2 1 2 run01 Tomo
           Tomo "/data/run01" "hdf5" fixture_valid).
Defined.

Lemma copy_metadata_best_effort_witness :
  (valid_stack Fixture.files Fixture.stack 2 1 2 run01 Tomo Tomo
     "/data/run01" "hdf5"
   ∧ ("hdf5" = "h5" ∨ "hdf5" = "hdf5"))
  ∧ (∀ src dst s, ∃ s',
       copy_metadata (pixel := Fixture.sample) src dst s = (Ok tt, s'))
  ∧ ∃ s' dm,
      minus_ln_stack (Some run01) Tomo Tomo (init_state Fixture.files)
      = (Ok PyNone, s')
      ∧ resolve s' (ObjRef run01_ln [Tomo]) = Some (Group ∅ dm)
      ∧ dm !! "rotation_angle"
        = (λ arr, Dataset (dataset_of arr))
            <$> field_value (init_state Fixture.files) (ObjRef run01 [Tomo])
                  "rotation_angle"
      ∧ dm !! "energy"
        = (λ arr, Dataset (dataset_of arr))
            <$> field_value (init_state Fixture.files) (ObjRef run01 [Tomo])
                  "energy"
      ∧ (field_value (init_state Fixture.files) (ObjRef run01 [Tomo])
           "rotation_angle" = None → EvPrint angles_msg ∈ trace s')
      ∧ (field_value (init_state Fixture.files) (ObjRef run01 [Tomo])
           "energy" = None →
         dm !! "energy" = None ∧ EvPrint energies_msg ∈ trace s')
      ∧ (∀ ax ay,
           field_value (init_state Fixture.files) (ObjRef run01 [Tomo])
             "x_pixel_size" = Some ax →
           field_value (init_state Fixture.files) (ObjRef run01 [Tomo])
             "y_pixel_size" = Some ay →
           dm !! "x_pixel_size" = Some (Dataset (dataset_of ax))
           ∧ dm !! "y_pixel_size" = Some (Dataset (dataset_of ay))).
Proof.
  split; [split; [exact fixture_valid|by right]|].
  exact (copy_metadata_best_effort Fixture.files Fixture.stack 2 1 2 run01
           Tomo Tomo "/data/run01" "hdf5" fixture_valid
           (or_intror eq_refl)).
Defined.

Lemma pixel_size_pair_atomic_witness :
  let s := init_state Fixture.files_with_destination in
  let src := ObjRef run01 [Tomo] in
  let dst := ObjRef run01_ln [Tomo] in
  (ref_file src ≠ ref_file dst
   ∧ resolve s dst = Some (Group ∅ ∅)
   ∧ (∅ : gmap string (node Fixture.sample)) !! "x_pixel_size" = None
   ∧ (∅ : gmap string (node Fixture.sample)) !! "y_pixel_size" = None)
  ∧ ∃ s' dm',
      copy_metadata src dst s = (Ok tt, s')
      ∧ resolve s' dst = Some (Group ∅ dm')
      ∧ (is_Some (dm' !! "x_pixel_size") ∧ is_Some (dm' !! "y_pixel_size")
         ↔ is_Some (field_value s src "x_pixel_size")
           ∧ is_Some (field_value s src "y_pixel_size"))
      ∧ (is_Some (dm' !! "x_pixel_size") ↔ is_Some (dm' !! "y_pixel_size"))
      ∧ (∀ ax ay,
           field_value s src "x_pixel_size" = Some ax →
           field_value s src "y_pixel_size" = Some ay →
           dm' !! "x_pixel_size" = Some (Dataset (dataset_of ax))
           ∧ dm' !! "y_pixel_size" = Some (Dataset (dataset_of ay)))
      ∧ (field_value s src "x_pixel_size" = None
         ∨ field_value s src "y_pixel_size" = None →
         dm' !! "x_pixel_size" = None ∧ dm' !! "y_pixel_size" = None).
Proof.
  intros s src dst.
  assert (ref_file src ≠ ref_file dst) as Hne by discriminate.
  assert (resolve s dst = Some (Group ∅ ∅)) as Hdst
    by (vm_compute; reflexivity).
  split; [by split_and!|].
  exact (pixel_size_pair_atomic s src dst ∅ ∅ Hne Hdst eq_refl eq_refl).
Defined.

Lemma destination_created_witness :
  (rsplit run01 "." = ["/data/run01"; "hdf5"]
   ∧ Fixture.files !! run01
     = Some (Container (Group ∅ {[Tomo := Fixture.tomo]})))
  ∧ ∃ res s',
      minus_ln_stack (Some run01) Tomo Tomo (init_state Fixture.files)
      = (res, s')
      ∧ (∃ root', fs s' !! run01_ln = Some (Container root'))
      ∧ EvOpen run01_ln WriteTruncate ∈ trace s'
      ∧ (∀ y, res = Ok y → y = PyNone).
Proof.
  assert (rsplit run01 "." = ["/data/run01"; "hdf5"]) as Hsplit
    by reflexivity.
  assert (Fixture.files !! run01
          = Some (Container (Group ∅ {[Tomo := Fixture.tomo]}))) as Hfile
    by (vm_compute; reflexivity).
  split; [done|].
  exact (destination_created Fixture.files run01 Tomo Tomo "/data/run01"
           "hdf5" _ Hsplit Hfile).
Defined.

Lemma extensionless_path_raises_witness :
  ¬ In "."%char (String.list_ascii_of_string "/data/stack")
  ∧ "/data/stack" ≠ EmptyString
  ∧ fs (init_state Fixture.files) !! "/data/stack"
    = Some (Container (Group ∅ {[Tomo := Fixture.tomo]}))
  ∧ minus_ln_stack (Some "/data/stack") Tomo Tomo (init_state Fixture.files)
    = (Raise IndexError,
       Build_state Fixture.files [("/data/stack", ReadOnly)]
         [EvOpen "/data/stack" ReadOnly]).
Proof.
  assert (¬ In "."%char (String.list_ascii_of_string "/data/stack")) as Hdot.
  { simpl. intros H. decompose [or] H; discriminate || done. }
  assert (fs (init_state Fixture.files) !! "/data/stack"
          = Some (Container (Group ∅ {[Tomo := Fixture.tomo]}))) as Hfile
    by (vm_compute; reflexivity).
  assert ("/data/stack" ≠ EmptyString) as Hfn by discriminate.
  split_and!; [done..|].
  exact (proj2 (extensionless_path_raises "/data/stack" Tomo Tomo
                  (init_state Fixture.files) Hdot) _ Hfn Hfile).
Defined.

(** The return value on the first example of the naming rule is [None],
    not the output path ["/data/run01_ln.hdf5"]. *)
Lemma output_path_not_returned :
  (minus_ln_stack (Some run01) Tomo Tomo (init_state Fixture.files)).1
  = Ok PyNone
  ∧ (minus_ln_stack (Some run01) Tomo Tomo (init_state Fixture.files)).1
    ≠ Ok (PyStr run01_ln).
Proof. split; [by vm_compute|]. vm_compute. discriminate. Qed.

Lemma absent_or_empty_input_rejected_witness :
  (Some EmptyString = None ∨ Some EmptyString = Some EmptyString)
  ∧ minus_ln_stack (Some EmptyString) Tomo Tomo (init_state Fixture.files)
    = (Raise ValueError, init_state Fixture.files).
Proof.
  assert (Some EmptyString = None ∨ Some EmptyString = Some EmptyString)
    as Hin by (right; reflexivity).
  split; [exact Hin|].
  exact (absent_or_empty_input_rejected (Some EmptyString) Tomo Tomo
           (init_state Fixture.files) Hin).
Defined.

(** The stub returns normally: it does not raise [NotImplementedError]. *)
Lemma mrc_stub_returns :
  (mrc_stack_minus_ln "scan.mrc" (init_state Fixture.files)).1 = Ok PyNone
  ∧ (mrc_stack_minus_ln "scan.mrc" (init_state Fixture.files)).1
    ≠ Raise NotImplementedError.
Proof. split; [reflexivity|discriminate]. Qed.

(** C8 fails on the code: on a container without the group [tree] the
    lookup [h5_handler[tree]] raises [KeyError] after both containers have
    been opened, and the exception leaves [minus_ln_stack] with both handles
    still open; no [close] is in the trace. *)
Theorem missing_group_leaks_handles :
  let run := minus_ln_stack (Some "/data/empty.hdf5") Tomo Tomo
               (init_state Fixture.files) in
  run.1 = Raise KeyError
  ∧ opened run.2
    = [("/data/empty.hdf5", ReadOnly); ("/data/empty_ln.hdf5", WriteTruncate)]
  ∧ trace run.2
    = [EvOpen "/data/empty.hdf5" ReadOnly;
       EvOpen "/data/empty_ln.hdf5" WriteTruncate].
Proof. by vm_compute. Qed.















(** The examples of the naming rule. *)
Example rsplit_run01 :
  rsplit "/data/run01.hdf5" "." = ["/data/run01"; "hdf5"].
Proof. reflexivity. Qed.

Example rsplit_scan : rsplit "scan.h5" "." = ["scan"; "h5"].
Proof. reflexivity. Qed.

Example rsplit_last_dot_only :
  rsplit "/data.v1/run.01.HDF5" "." = ["/data.v1/run.01"; "HDF5"].
Proof. reflexivity. Qed.

(** The frames of the sample stack: ones give zeros, [e] gives [-1], and
    [0] gives an infinity (no clamping). *)
Example converted_sample_frames :
  minus_ln_frames (ds_data Fixture.stack)
  = [[Fixture.zero; Fixture.zero]; [Fixture.minus_one; Fixture.inf]].
Proof. reflexivity. Qed.

(** The sample run: the metadata present in the source is copied, the
    missing energy is reported, and both handles are closed. *)
Example run01_converted :
  let run := minus_ln_stack (Some run01) Tomo Tomo (init_state Fixture.files)
  in
  run.1 = Ok PyNone
  ∧ opened run.2 = []
  ∧ resolve run.2 (ObjRef run01_ln [Tomo])
    = Some (Group ∅
              (<[Tomo := Dataset (converted_stack 2 1 2 Fixture.stack)]>
              (<["rotation_angle" := Dataset (Build_dataset [2] Float64 None ∅
                                                [[Fixture.zero];
                                                 [Fixture.one]])]>
              (<["x_pixel_size" := Dataset Fixture.pixel_size]>
               {["y_pixel_size" := Dataset Fixture.pixel_size]}))))
  ∧ printed (trace run.2)
    = [energies_msg; "Stack " +:+ run01 +:+ " has been converted"].
Proof. by vm_compute. Qed.

(** An upper-case extension: no metadata is copied and nothing is reported. *)
Example uppercase_extension_skips_metadata :
  let run := minus_ln_stack (Some "/data/run02.HDF5") Tomo Tomo
               (init_state Fixture.files) in
  run.1 = Ok PyNone
  ∧ resolve run.2 (ObjRef "/data/run02_ln.hdf5" [Tomo])
    = Some (Group ∅
              {[Tomo := Dataset (converted_stack 2 1 2 Fixture.stack)]})
  ∧ calls (trace run.2) = []
  ∧ printed (trace run.2)
    = ["Stack " +:+ "/data/run02.HDF5" +:+ " has been converted"].
Proof. by vm_compute. Qed.

(** Only one pixel size in the source, and a group named [energy]: none
    of the fields is copied, each block reports once, the run succeeds. *)
Example partial_metadata_skipped :
  let run := minus_ln_stack (Some "/data/run03.h5") Tomo Tomo
               (init_state Fixture.files) in
  run.1 = Ok PyNone
  ∧ resolve run.2 (ObjRef "/data/run03_ln.hdf5" [Tomo])
    = Some (Group ∅
              {[Tomo := Dataset (converted_stack 2 1 2 Fixture.stack)]})
  ∧ calls (trace run.2) = ["copy_metadata"]
  ∧ printed (trace run.2)
    = [angles_msg; energies_msg; pixel_size_msg;
       "Stack " +:+ "/data/run03.h5" +:+ " has been converted"].
Proof. by vm_compute. Qed.
